(** * The commerce machine of [src/machines/commerce-machine.ts]

    A shallow embedding of the pricing state machine: the JavaScript values
    it receives from the pricing service, the [zod] validations and the
    [lodash] emptiness test its actions rely on, the machine's context, its
    transition function, and the interpreter that feeds it events, starts
    the invoked fetch and runs the 500ms delayed transition. *)

From Stdlib Require Import String ZArith NArith List Bool Lia.
Import ListNotations.
Local Open Scope string_scope.
Set Warnings "-register-all".

(** ** JavaScript values *)

(** The values a pricing payload is made of.  Numbers are integers, an
    object is the list of its own properties in order; [JUndefined] is what
    reading a missing property gives. *)
Inductive JsVal : Type :=
| JUndefined
| JNull
| JBool (b : bool)
| JNum (n : Z)
| JStr (s : string)
| JArr (items : list JsVal)
| JObj (props : list (string * JsVal)).

Module Js.

Fixpoint assoc (k : string) (props : list (string * JsVal)) : option JsVal :=
  match props with
  | [] => None
  | (k', v) :: rest => if String.eqb k k' then Some v else assoc k rest
  end.

(** [v?.k]: [undefined] on [null] and [undefined], the own property of an
    object, and [undefined] for every other value (none of the property
    names the machine reads is a built-in of strings, arrays or numbers). *)
Definition get (v : JsVal) (k : string) : JsVal :=
  match v with
  | JObj props =>
      match assoc k props with
      | Some x => x
      | None => JUndefined
      end
  | _ => JUndefined
  end.

(** [a === b].  Primitives compare by value.  Two arrays or objects are
    equal only when they are the same reference, which two different
    places of a deserialised payload never are. *)
Definition strict_eq (a b : JsVal) : bool :=
  match a, b with
  | JUndefined, JUndefined => true
  | JNull, JNull => true
  | JBool x, JBool y => Bool.eqb x y
  | JNum x, JNum y => Z.eqb x y
  | JStr x, JStr y => String.eqb x y
  | _, _ => false
  end.

(** [lodash/isEmpty]: [null] and [undefined] are empty, an array or a
    string is empty when its length is 0, an object when it has no own
    property; a number or a boolean has no own property, so it is empty. *)
Definition isEmpty (v : JsVal) : bool :=
  match v with
  | JUndefined | JNull => true
  | JBool _ | JNum _ => true
  | JStr s => Nat.eqb (String.length s) 0
  | JArr items => Nat.eqb (List.length items) 0
  | JObj props => Nat.eqb (List.length props) 0
  end.

(** [Array.prototype.find] *)
Fixpoint find (p : JsVal -> bool) (items : list JsVal) : JsVal :=
  match items with
  | [] => JUndefined
  | x :: rest => if p x then x else find p rest
  end.

End Js.

(** ** zod schemas

    A schema is its [safeParse]: [None] when [success] is false, the parsed
    data otherwise. *)
Module Zod.

Definition schema (A : Type) : Type := JsVal -> option A.

Definition string_ : schema string :=
  fun v => match v with JStr s => Some s | _ => None end.

Definition number_ : schema Z :=
  fun v => match v with JNum n => Some n | _ => None end.

Definition optional {A} (s : schema A) : schema (option A) :=
  fun v =>
    match v with
    | JUndefined => Some None
    | _ => match s v with Some a => Some (Some a) | None => None end
    end.

Fixpoint parse_all {A} (s : schema A) (items : list JsVal) : option (list A) :=
  match items with
  | [] => Some []
  | x :: rest =>
      match s x, parse_all s rest with
      | Some a, Some l => Some (a :: l)
      | _, _ => None
      end
  end.

Definition array {A} (s : schema A) : schema (list A) :=
  fun v => match v with JArr items => parse_all s items | _ => None end.

(** The field [k] of a [z.object]: the input has to be an object, and the
    field's schema is run on the property (on [undefined] when it is
    missing). *)
Definition field {A} (k : string) (s : schema A) : schema A :=
  fun v => match v with JObj _ => s (Js.get v k) | _ => None end.

End Zod.

(** ** The context of the machine *)

Inductive CouponType : Type := ppp | default.

Record CouponToApply : Type := {
  couponCode : JsVal;
  couponType : CouponType
}.

Record CommerceMachineContext : Type := {
  pricingData : JsVal;
  priceId : option string;
  quantity : Z;
  couponToApply : option CouponToApply
}.

(** The context the machine is created with:
    [{pricingData: {}, priceId: undefined, quantity: 1, couponToApply: undefined}]. *)
Definition initial_context : CommerceMachineContext :=
  {| pricingData := JObj [];
     priceId := None;
     quantity := 1;
     couponToApply := None |}.

(** What an [assign] action returns: the properties to overwrite.  A
    property that is missing from the returned object keeps its value; a
    property that is there with the value [undefined] is overwritten by
    [undefined]. *)
Record Assignment : Type := {
  set_pricingData : option JsVal;
  set_priceId : option (option string);
  set_quantity : option Z;
  set_couponToApply : option (option CouponToApply)
}.

Definition no_change : Assignment :=
  {| set_pricingData := None; set_priceId := None;
     set_quantity := None; set_couponToApply := None |}.

(** [{pricingData: v}] *)
Definition only_pricingData (v : JsVal) : Assignment :=
  {| set_pricingData := Some v; set_priceId := None;
     set_quantity := None; set_couponToApply := None |}.

(** [{couponToApply: c}], where [c] may be [undefined] *)
Definition only_couponToApply (c : option CouponToApply) : Assignment :=
  {| set_pricingData := None; set_priceId := None;
     set_quantity := None; set_couponToApply := Some c |}.

Definition override {A} (a b : option A) : option A :=
  match b with
  | Some _ => b
  | None => a
  end.

(** [{...a, ...b}]: the properties of [b] win. *)
Definition spread (a b : Assignment) : Assignment :=
  {| set_pricingData := override (set_pricingData a) (set_pricingData b);
     set_priceId := override (set_priceId a) (set_priceId b);
     set_quantity := override (set_quantity a) (set_quantity b);
     set_couponToApply := override (set_couponToApply a) (set_couponToApply b) |}.

Definition assign (context : CommerceMachineContext) (a : Assignment)
  : CommerceMachineContext :=
  {| pricingData := match set_pricingData a with Some v => v | None => pricingData context end;
     priceId := match set_priceId a with Some v => v | None => priceId context end;
     quantity := match set_quantity a with Some v => v | None => quantity context end;
     couponToApply :=
       match set_couponToApply a with Some v => v | None => couponToApply context end |}.

Definition CouponType_eqb (a b : CouponType) : bool :=
  match a, b with
  | ppp, ppp | default, default => true
  | _, _ => false
  end.

(** [string | undefined] as a JavaScript value. *)
Definition js_of_priceId (p : option string) : JsVal :=
  match p with
  | Some s => JStr s
  | None => JUndefined
  end.

(** ** Events *)

Inductive CommerceMachineEvent : Type :=
| CHANGE_QUANTITY (quantity : Z)
| REMOVE_PPP_COUPON
| APPLY_PPP_COUPON
| CONFIRM_PRICE (onClickCheckout : nat)
| SWITCH_PRICE (priceId : string)
| done_invoke_fetchPricingDataService (data : JsVal)
| error_platform_fetchPricingDataService
| after_500.

(** ** States *)

Inductive CouponStatus : Type :=
| withPPPCoupon
| withDefaultCoupon
| withoutCoupon.

Inductive StateValue : Type :=
| loadingPrices
| debouncingQuantityChange
| pricesLoaded (status : CouponStatus)
| pricingFetchFailed.

(** What a transition asks of the outside: the invoked pricing request,
    with the arguments [loadPricingData] is called with, and the checkout
    callback of [CONFIRM_PRICE]. *)
Inductive Effect : Type :=
| LoadPricingData (quantity : Z) (coupon : JsVal)
| OnClickCheckout (callback : nat).

(** ** Actions, guards and transitions *)

Section Machine.

(** [pricingPlanSchema] is imported from [types], which is not among the
    sources: the machine is defined for any schema of a plan. *)
Variable pricingPlanSchema : Zod.schema JsVal.

Definition findAvailablePPPCoupon (pricingData : JsVal) : JsVal :=
  Js.get (Js.get pricingData "available_coupons") "ppp".

Definition extractAppliedDefaultCoupon (pricingData : JsVal) : Assignment :=
  let availableDefaultCoupon :=
    Js.get (Js.get pricingData "available_coupons") "default" in
  let appliedCoupon := Js.get pricingData "applied_coupon" in
  if Js.isEmpty availableDefaultCoupon || Js.isEmpty appliedCoupon then no_change
  else if Js.strict_eq (Js.get availableDefaultCoupon "coupon_code")
                       (Js.get appliedCoupon "coupon_code")
  then only_couponToApply
         (Some {| couponCode := Js.get appliedCoupon "coupon_code";
                  couponType := default |})
  else no_change.

(** [z.object({plans: z.array(pricingPlanSchema)})] *)
Definition plansSchema : Zod.schema (list JsVal) :=
  Zod.field "plans" (Zod.array pricingPlanSchema).

Definition currentPlan (plans : list JsVal) (context : CommerceMachineContext)
  : JsVal :=
  Js.find
    (fun plan => Js.strict_eq (Js.get plan "stripe_price_id")
                              (js_of_priceId (priceId context)))
    plans.

Definition assignPricingData (context : CommerceMachineContext)
  (event : CommerceMachineEvent) : Assignment :=
  match event with
  | done_invoke_fetchPricingDataService data =>
      match plansSchema (pricingData context) with
      | None => only_pricingData data
      | Some plans =>
          let noCouponToApply :=
            Js.isEmpty (Js.get (currentPlan plans context) "price_discounted") in
          let couponData :=
            if noCouponToApply then only_couponToApply None
            else extractAppliedDefaultCoupon data in
          spread (only_pricingData data) couponData
      end
  | _ => no_change
  end.

Definition updateQuantity (event : CommerceMachineEvent) : Assignment :=
  match event with
  | CHANGE_QUANTITY q =>
      {| set_pricingData := None; set_priceId := None;
         set_quantity := Some q; set_couponToApply := None |}
  | _ => no_change
  end.

Definition pppCouponSchema : Zod.schema CouponToApply :=
  fun v =>
    match Zod.field "available_coupons"
            (Zod.field "ppp" (Zod.field "coupon_code" Zod.string_)) v with
    | Some code => Some {| couponCode := JStr code; couponType := ppp |}
    | None => None
    end.

Definition applyPPPCoupon (context : CommerceMachineContext) : Assignment :=
  only_couponToApply (pppCouponSchema (pricingData context)).

Definition removePPPCoupon : Assignment := only_couponToApply None.

Definition switchPrice (p : string) : Assignment :=
  {| set_pricingData := None; set_priceId := Some (Some p);
     set_quantity := None; set_couponToApply := None |}.

Definition pricingIncludesPPPCoupon (context : CommerceMachineContext) : bool :=
  match couponToApply context with
  | Some c => CouponType_eqb (couponType c) ppp
  | None => false
  end.

Definition pricingIncludesDefaultCoupon (context : CommerceMachineContext) : bool :=
  match couponToApply context with
  | Some c => CouponType_eqb (couponType c) default
  | None => false
  end.

(** The [always] transitions of [checkingCouponStatus], first guard first. *)
Definition checkingCouponStatus (context : CommerceMachineContext) : CouponStatus :=
  if pricingIncludesPPPCoupon context then withPPPCoupon
  else if pricingIncludesDefaultCoupon context then withDefaultCoupon
  else withoutCoupon.

(** A transition that is taken: where it ends, the context after its
    actions, and the callbacks its actions call. *)
Definition Taken : Type :=
  (StateValue * CommerceMachineContext * list Effect)%type.

(** The transitions each state declares in [states]. *)
Definition state_on (value : StateValue) (context : CommerceMachineContext)
  (event : CommerceMachineEvent) : option Taken :=
  match value, event with
  | loadingPrices, done_invoke_fetchPricingDataService _ =>
      let context' := assign context (assignPricingData context event) in
      Some (pricesLoaded (checkingCouponStatus context'), context', [])
  | loadingPrices, error_platform_fetchPricingDataService =>
      Some (pricingFetchFailed, context, [])
  | debouncingQuantityChange, CHANGE_QUANTITY _ =>
      Some (debouncingQuantityChange, assign context (updateQuantity event), [])
  | debouncingQuantityChange, after_500 =>
      Some (loadingPrices, context, [])
  | pricesLoaded withPPPCoupon, REMOVE_PPP_COUPON =>
      Some (loadingPrices, assign context removePPPCoupon, [])
  | pricesLoaded withDefaultCoupon, APPLY_PPP_COUPON
  | pricesLoaded withoutCoupon, APPLY_PPP_COUPON =>
      Some (loadingPrices, assign context (applyPPPCoupon context), [])
  | pricesLoaded status, SWITCH_PRICE p =>
      Some (pricesLoaded status, assign context (switchPrice p), [])
  | pricesLoaded status, CONFIRM_PRICE onClickCheckout =>
      Some (pricesLoaded status, context, [OnClickCheckout onClickCheckout])
  | _, _ => None
  end.

(** The transitions of the machine's own [on], tried when the active
    state has none for the event. *)
Definition root_on (context : CommerceMachineContext)
  (event : CommerceMachineEvent) : option Taken :=
  match event with
  | CHANGE_QUANTITY _ =>
      Some (debouncingQuantityChange, assign context (updateQuantity event), [])
  | _ => None
  end.

Definition transition (value : StateValue) (context : CommerceMachineContext)
  (event : CommerceMachineEvent) : option Taken :=
  match state_on value context event with
  | Some t => Some t
  | None => root_on context event
  end.

(** ** The interpreter *)

Inductive Status : Type := Running | Stopped.

(** A running service: the state, the context, the time in milliseconds,
    the time at which the pending delayed transition fires, and what the
    service has asked of the outside so far, oldest first. *)
Record Service : Type := {
  status : Status;
  value : StateValue;
  context : CommerceMachineContext;
  clock : N;
  deadline : option N;
  effects : list Effect
}.

(** [fetchPricingData], the service [loadingPrices] invokes. *)
Definition fetchPricingData (context : CommerceMachineContext) : Effect :=
  LoadPricingData (quantity context)
    (match couponToApply context with
     | Some c => couponCode c
     | None => JUndefined
     end).

(** What entering a state starts. *)
Definition entry (value : StateValue) (context : CommerceMachineContext)
  : list Effect :=
  match value with
  | loadingPrices => [fetchPricingData context]
  | _ => []
  end.

Definition is_final (value : StateValue) : bool :=
  match value with
  | pricingFetchFailed => true
  | _ => false
  end.

Definition start (context : CommerceMachineContext) (now : N) : Service :=
  {| status := Running;
     value := loadingPrices;
     context := context;
     clock := now;
     deadline := None;
     effects := entry loadingPrices context |}.

(** One event.  A stopped service ignores it.  A transition with a target
    leaves the active state, which cancels its delayed transition and its
    invoked request, and enters the target: [debouncingQuantityChange]
    schedules its delayed transition 500ms from now, [loadingPrices]
    invokes the request.  The two transitions without a target
    ([SWITCH_PRICE], [CONFIRM_PRICE]) are only taken inside [pricesLoaded],
    where nothing is pending.  Reaching the final state stops the
    service.  The two events of the invoked request are those of the
    request made last: a request whose state was left is cancelled and
    delivers nothing. *)
Definition send (event : CommerceMachineEvent) (s : Service) : Service :=
  match status s with
  | Stopped => s
  | Running =>
      match transition (value s) (context s) event with
      | None => s
      | Some (value', context', called) =>
          {| status := if is_final value' then Stopped else Running;
             value := value';
             context := context';
             clock := clock s;
             deadline :=
               match value' with
               | debouncingQuantityChange => Some (clock s + 500)%N
               | _ => None
               end;
             effects := effects s ++ called ++ entry value' context' |}
      end
  end.

(** Time passes until [now]: a delayed transition that is due by then
    fires at its deadline. *)
Definition advance (now : N) (s : Service) : Service :=
  let s' :=
    match deadline s with
    | Some d => if (d <=? now)%N then send after_500 s else s
    | None => s
    end in
  {| status := status s'; value := value s'; context := context s';
     clock := N.max (clock s) now; deadline := deadline s';
     effects := effects s' |}.

(** An event that arrives at time [now]. *)
Definition send_at (now : N) (event : CommerceMachineEvent) (s : Service)
  : Service :=
  send event (advance now s).

Definition run (events : list CommerceMachineEvent) (s : Service) : Service :=
  fold_left (fun s event => send event s) events s.

Definition run_at (events : list (N * CommerceMachineEvent)) (s : Service)
  : Service :=
  fold_left (fun s e => send_at (fst e) (snd e) s) events s.

End Machine.

Arguments send pricingPlanSchema event s : simpl never.
Arguments assignPricingData pricingPlanSchema context event : simpl never.

(** Modelled from the spec: the schema [pricingPlanSchema] of [types], which
    is not among the sources.  A plan is an object with a plan identifier, a
    string, and optionally a discounted price, a number, under the names the
    machine reads them by ([stripe_price_id], [price_discounted]); as zod's
    objects do, the parsed plan keeps the declared properties only. *)
Definition specPricingPlanSchema : Zod.schema JsVal :=
  fun v =>
    match Zod.field "stripe_price_id" Zod.string_ v,
          Zod.field "price_discounted" (Zod.optional Zod.number_) v with
    | Some id, Some discounted =>
        Some (JObj (("stripe_price_id", JStr id) ::
                    match discounted with
                    | Some n => [("price_discounted", JNum n)]
                    | None => []
                    end))
    | _, _ => None
    end.

(** ** Payloads and contexts of the scenarios *)

Module Scenario.

Definition coupon (code : string) : JsVal := JObj [("coupon_code", JStr code)].

Definition plan_p1 : JsVal :=
  JObj [("stripe_price_id", JStr "p1"); ("price_discounted", JNum 10)].

Definition plan_p1_undiscounted : JsVal :=
  JObj [("stripe_price_id", JStr "p1")].

(** [{plans: [{p1, 10}], available_coupons: {default: {D1}}, applied_coupon: {D1}}] *)
Definition payload_D1 : JsVal :=
  JObj [("plans", JArr [plan_p1]);
        ("available_coupons", JObj [("default", coupon "D1")]);
        ("applied_coupon", coupon "D1")].

(** The same with [applied_coupon: {OTHER}]. *)
Definition payload_OTHER : JsVal :=
  JObj [("plans", JArr [plan_p1]);
        ("available_coupons", JObj [("default", coupon "D1")]);
        ("applied_coupon", coupon "OTHER")].

(** A payload that offers a regional coupon and has no [plans]. *)
Definition payload_ppp_no_plans : JsVal :=
  JObj [("available_coupons", JObj [("ppp", coupon "P1")])].

(** A well-formed payload that offers a regional coupon. *)
Definition payload_ppp : JsVal :=
  JObj [("plans", JArr [plan_p1]);
        ("available_coupons", JObj [("ppp", coupon "P1")])].

(** A payload whose only plan has no identifier. *)
Definition payload_plan_without_id : JsVal :=
  JObj [("plans", JArr [JObj [("price_discounted", JNum 10)]]);
        ("available_coupons", JObj [("ppp", coupon "P1")])].

(** A payload whose only plan has no discounted price. *)
Definition payload_undiscounted : JsVal :=
  JObj [("plans", JArr [plan_p1_undiscounted]);
        ("available_coupons", JObj [("ppp", coupon "P1")])].

(** [{quantity: 1, priceId: 'p1'}] on top of the machine's own context. *)
Definition context_p1 : CommerceMachineContext :=
  {| pricingData := JObj [];
     priceId := Some "p1";
     quantity := 1;
     couponToApply := None |}.

(** The context of a machine created with the default coupon [D1]. *)
Definition context_D1 : CommerceMachineContext :=
  {| pricingData := JObj [];
     priceId := Some "p1";
     quantity := 1;
     couponToApply := Some {| couponCode := JStr "D1"; couponType := default |} |}.

(** The context of a machine created with the plan [p1] selected and the
    regional coupon [P1] set. *)
Definition context_P1 : CommerceMachineContext :=
  {| pricingData := JObj [];
     priceId := Some "p1";
     quantity := 1;
     couponToApply := Some {| couponCode := JStr "P1"; couponType := ppp |} |}.

End Scenario.

(** ** The vocabulary of the properties *)

(** What time alone cannot change in a stopped service. *)
Definition frozen (s0 s : Service) : Prop :=
  status s = Stopped /\ value s = value s0 /\ context s = context s0 /\
  effects s = effects s0.

(** The events of a burst: at each time, the new quantity. *)
Definition quantity_changes (burst : list (N * Z))
  : list (N * CommerceMachineEvent) :=
  map (fun tq => (fst tq, CHANGE_QUANTITY (snd tq))) burst.

(** Each change comes less than 500ms after the one before, the first one
    after [t0]. *)
Fixpoint spaced (t0 : N) (burst : list (N * Z)) : bool :=
  match burst with
  | [] => true
  | tq :: rest =>
      (t0 <=? fst tq)%N && (fst tq <? t0 + 500)%N && spaced (fst tq) rest
  end.

(** The service waits in [debouncingQuantityChange] since [t], with the
    quantity [q], having asked [E] of the outside. *)
Definition debouncing (E : list Effect) (C : option CouponToApply)
  (t : N) (q : Z) (s : Service) : Prop :=
  status s = Running /\ value s = debouncingQuantityChange /\
  clock s = t /\ deadline s = Some (t + 500)%N /\
  quantity (context s) = q /\ couponToApply (context s) = C /\
  effects s = E.

(** No regional coupon to apply, and not in [withPPPCoupon]. *)
Definition without_ppp (s : Service) : Prop :=
  pricingIncludesPPPCoupon (context s) = false /\
  value s <> pricesLoaded withPPPCoupon.

(** ** The guard on the selected price *)

(** [priceHasBeenSelected]: [!isEmpty(context.priceId)]. *)
Definition priceHasBeenSelected (context : CommerceMachineContext) : bool :=
  negb (Js.isEmpty (js_of_priceId (priceId context))).

(** ** The states a service goes through *)

(** What a service created with [context0] can become: events are sent to
    it and time passes. *)
Inductive Reachable (schema : Zod.schema JsVal) (context0 : CommerceMachineContext)
  : Service -> Prop :=
| Reachable_start now : Reachable schema context0 (start context0 now)
| Reachable_send event s :
    Reachable schema context0 s -> Reachable schema context0 (send schema event s)
| Reachable_advance now s :
    Reachable schema context0 s -> Reachable schema context0 (advance schema now s).

(** The pricing requests among what a service asked of the outside. *)
Fixpoint count_requests (asked : list Effect) : nat :=
  match asked with
  | [] => 0
  | LoadPricingData _ _ :: rest => S (count_requests rest)
  | OnClickCheckout _ :: rest => count_requests rest
  end.

(** A schema whose plans have a number, or nothing, as discounted price. *)
Definition numeric_discount (schema : Zod.schema JsVal) : Prop :=
  forall v plan, schema v = Some plan ->
    (exists n, Js.get plan "price_discounted" = JNum n) \/
    Js.get plan "price_discounted" = JUndefined.

(** The state agrees with the rest of the service: stopped exactly in the
    final state, the coupon status that of the coupon to apply, a delayed
    transition pending exactly in [debouncingQuantityChange] and due within
    500ms, and in [loadingPrices] the last request made is the one for the
    context. *)
Definition consistent (s : Service) : Prop :=
  (status s = Stopped <-> value s = pricingFetchFailed) /\
  (forall st, value s = pricesLoaded st -> st = checkingCouponStatus (context s)) /\
  match deadline s with
  | Some d => value s = debouncingQuantityChange /\ (clock s < d <= clock s + 500)%N
  | None => value s <> debouncingQuantityChange
  end /\
  (value s = loadingPrices ->
   exists before, effects s = (before ++ [fetchPricingData (context s)])%list).

(** A coupon of type [ppp] carries a string. *)
Definition ppp_code_is_string (context : CommerceMachineContext) : Prop :=
  forall c, couponToApply context = Some c -> couponType c = ppp ->
    exists code, couponCode c = JStr code.

(** No default coupon to apply, and not in [withDefaultCoupon]. *)
Definition without_default (s : Service) : Prop :=
  pricingIncludesDefaultCoupon (context s) = false /\
  value s <> pricesLoaded withDefaultCoupon.

(** The events of the user that only [pricesLoaded] handles. *)
Definition handled_in_pricesLoaded (event : CommerceMachineEvent) : bool :=
  match event with
  | REMOVE_PPP_COUPON | APPLY_PPP_COUPON | CONFIRM_PRICE _ | SWITCH_PRICE _ => true
  | _ => false
  end.

(** A service created with [context0] at time [now], after the timed
    events [timed], at time [finally]. *)
Definition execution (schema : Zod.schema JsVal) (context0 : CommerceMachineContext)
  (now : N) (timed : list (N * CommerceMachineEvent)) (finally : N) : Service :=
  advance schema finally (run_at schema timed (start context0 now)).

Definition is_loadingPrices (v : StateValue) : bool :=
  match v with
  | loadingPrices => true
  | _ => false
  end.

(** The event enters [loadingPrices]. *)
Definition enters_loadingPrices (before after : Service) : bool :=
  is_loadingPrices (value after) && negb (is_loadingPrices (value before)).

(** ** The account page

    The helpers of the page of a user's account (the unnamed source file
    that defines [getAccountWithSubscription] and [useProgressForUser]). *)
Module UserPage.

(** [ViewerAccount]; [subscriptions] is read with [?.], so it may be
    missing. *)
Record ViewerAccount : Type := {
  stripe_customer_id : string;
  slug : string;
  subscriptions : option (list JsVal)
}.

(** What [getAccountWithSubscription] returns: one of the accounts, or the
    object [{slug: ''}]. *)
Inductive AccountOrEmpty : Type :=
| AnAccount (account : ViewerAccount)
| EmptySlug.

(** The [slug] property of the result. *)
Definition slug_of (r : AccountOrEmpty) : string :=
  match r with
  | AnAccount account => slug account
  | EmptySlug => ""
  end.

(** [lodash/find] on an array; [None] is [undefined]. *)
Fixpoint find {A} (p : A -> bool) (l : list A) : option A :=
  match l with
  | [] => None
  | x :: rest => if p x then Some x else find p rest
  end.

(** [lodash/first] *)
Definition first {A} (l : list A) : option A :=
  match l with
  | [] => None
  | x :: _ => Some x
  end.

(** [account.subscriptions?.length > 0]; [undefined > 0] is false. *)
Definition has_subscriptions (account : ViewerAccount) : bool :=
  match subscriptions account with
  | Some l => Nat.ltb 0 (List.length l)
  | None => false
  end.

(** [getAccountWithSubscription].  [accounts] is [undefined] when there is
    no viewer; lodash then finds nothing and has no first element.  An
    account is an object, so [||] passes over it only when it is
    [undefined]. *)
Definition getAccountWithSubscription (accounts : option (list ViewerAccount))
  : AccountOrEmpty :=
  let collection := match accounts with Some l => l | None => [] end in
  match find has_subscriptions collection with
  | Some account => AnAccount account
  | None =>
      match first collection with
      | Some account => AnAccount account
      | None => EmptySlug
      end
  end.

(** [loadAccountForSlug] of the page's effect: the call of [loadAccount] it
    makes, if any. *)
Definition loadAccountForSlug (slug authToken : string) : option (string * string) :=
  if Nat.eqb (String.length slug) 0 then None else Some (slug, authToken).

(** The call the effect makes for the accounts of the viewer. *)
Definition account_request (accounts : option (list ViewerAccount))
  (authToken : string) : option (string * string) :=
  loadAccountForSlug (slug_of (getAccountWithSubscription accounts)) authToken.

(** The truth of a value in a condition. *)
Definition truthy (v : JsVal) : bool :=
  match v with
  | JUndefined | JNull => false
  | JBool b => b
  | JNum n => negb (Z.eqb n 0)
  | JStr s => negb (Nat.eqb (String.length s) 0)
  | JArr _ | JObj _ => true
  end.

(** [p.is_complete]: reading a property of [null] or [undefined] throws. *)
Definition is_complete (p : JsVal) : option JsVal :=
  match p with
  | JUndefined | JNull => None
  | _ => Some (Js.get p "is_complete")
  end.

(** [data.filter((p) => !p.is_complete)]; [None] when the callback throws. *)
Fixpoint in_progress (data : list JsVal) : option (list JsVal) :=
  match data with
  | [] => Some []
  | p :: rest =>
      match is_complete p with
      | None => None
      | Some c =>
          match in_progress rest with
          | None => None
          | Some kept => Some (if negb (truthy c) then p :: kept else kept)
          end
      end
  end.

End UserPage.

(** * Properties *)

(** A case for each state the machine can rest in. *)
Ltac each_state v := destruct v as [| |[]|].

(** ** Assignments *)

Lemma assign_no_change (context : CommerceMachineContext) :
  assign context no_change = context.
Proof. destruct context; reflexivity. Qed.

(** ** The inference of the default coupon *)

Lemma isEmpty_false_defined (v : JsVal) :
  Js.isEmpty v = false -> v <> JUndefined.
Proof. intros H ->; discriminate H. Qed.

(** Either the step changes nothing, or it sets the applied coupon's code
    as a coupon of type [default]. *)
Lemma extractAppliedDefaultCoupon_cases (data : JsVal) :
  extractAppliedDefaultCoupon data = no_change \/
  extractAppliedDefaultCoupon data =
    only_couponToApply
      (Some {| couponCode := Js.get (Js.get data "applied_coupon") "coupon_code";
               couponType := default |}).
Proof.
  unfold extractAppliedDefaultCoupon.
  destruct (Js.isEmpty _ || Js.isEmpty _); [now left|].
  destruct (Js.strict_eq _ _); [now right | now left].
Qed.

(** What [assignPricingData] leaves in [couponToApply], by the three ways
    through it. *)
Lemma couponToApply_assignPricingData schema context data :
  couponToApply
    (assign context
       (assignPricingData schema context (done_invoke_fetchPricingDataService data))) =
  match plansSchema schema (pricingData context) with
  | None => couponToApply context
  | Some plans =>
      if Js.isEmpty (Js.get (currentPlan plans context) "price_discounted")
      then None
      else couponToApply (assign context (extractAppliedDefaultCoupon data))
  end.
Proof.
  unfold assignPricingData.
  destruct (plansSchema schema (pricingData context)) as [plans|]; [|reflexivity].
  destruct (Js.isEmpty _); [reflexivity|].
  destruct (extractAppliedDefaultCoupon_cases data) as [-> | ->]; reflexivity.
Qed.

Lemma pricingData_assignPricingData schema context data :
  pricingData
    (assign context
       (assignPricingData schema context (done_invoke_fetchPricingDataService data))) =
  data.
Proof.
  unfold assignPricingData.
  destruct (plansSchema schema (pricingData context)) as [plans|]; [|reflexivity].
  destruct (Js.isEmpty _); [reflexivity|].
  destruct (extractAppliedDefaultCoupon_cases data) as [-> | ->]; reflexivity.
Qed.

(** ** Plans parsed by the schema of the spec *)

Lemma parse_all_In {A} (s : Zod.schema A) (items : list JsVal) :
  forall parsed, Zod.parse_all s items = Some parsed ->
  forall a, In a parsed -> exists x, In x items /\ s x = Some a.
Proof.
  induction items as [|x items IH]; simpl; intros parsed H a Ha.
  - injection H as <-. destruct Ha.
  - destruct (s x) as [b|] eqn:Hx; [|discriminate].
    destruct (Zod.parse_all s items) as [l|]; [|discriminate].
    injection H as <-. destruct Ha as [<- | Ha].
    + exists x. split; [now left | assumption].
    + destruct (IH l eq_refl a Ha) as (y & Hy & Hs).
      exists y. split; [now right | assumption].
Qed.

Lemma find_cases (p : JsVal -> bool) (items : list JsVal) :
  Js.find p items = JUndefined \/
  (In (Js.find p items) items /\ p (Js.find p items) = true).
Proof.
  induction items as [|x items IH]; simpl.
  - now left.
  - destruct (p x) eqn:Hx.
    + right. split; [now left | assumption].
    + destruct IH as [IH | [IH1 IH2]]; [now left | right].
      split; [now right | assumption].
Qed.

Lemma find_none (p : JsVal -> bool) (items : list JsVal) :
  (forall x, In x items -> p x = false) -> Js.find p items = JUndefined.
Proof.
  intros H. destruct (find_cases p items) as [E | [Hin Hp]]; [assumption|].
  rewrite (H _ Hin) in Hp. discriminate Hp.
Qed.

(** A discounted price that went through [z.number()] is a number, and
    [isEmpty] of a number is true. *)
Lemma specPricingPlanSchema_discount_isEmpty (v plan : JsVal) :
  specPricingPlanSchema v = Some plan ->
  Js.isEmpty (Js.get plan "price_discounted") = true.
Proof.
  unfold specPricingPlanSchema. intros H.
  destruct (Zod.field "stripe_price_id" Zod.string_ v) as [id|]; [|discriminate].
  destruct (Zod.field "price_discounted" (Zod.optional Zod.number_) v)
    as [[n|]|]; [| |discriminate]; injection H as <-; reflexivity.
Qed.

(** With the schema of the spec, a fetch that completes over pricing data
    that pass the validation always clears [couponToApply]: the inference of
    the default coupon is never reached. *)
Lemma specPricingPlanSchema_always_clears context data plans :
  plansSchema specPricingPlanSchema (pricingData context) = Some plans ->
  couponToApply
    (assign context
       (assignPricingData specPricingPlanSchema context
          (done_invoke_fetchPricingDataService data))) = None.
Proof.
  intros Hplans. rewrite couponToApply_assignPricingData, Hplans.
  assert (Js.isEmpty (Js.get (currentPlan plans context) "price_discounted") = true)
    as ->; [|reflexivity].
  unfold currentPlan.
  destruct (find_cases
              (fun plan => Js.strict_eq (Js.get plan "stripe_price_id")
                             (js_of_priceId (priceId context))) plans)
    as [-> | [Hin _]]; [reflexivity|].
  unfold plansSchema, Zod.field, Zod.array in Hplans.
  destruct (pricingData context); try discriminate.
  destruct (Js.get (JObj props) "plans"); try discriminate.
  destruct (parse_all_In _ _ _ Hplans _ Hin) as (x & _ & Hx).
  exact (specPricingPlanSchema_discount_isEmpty _ _ Hx).
Qed.

(** ** The first fetch *)

(** C1: from the context [{quantity: 1, priceId: 'p1'}], with empty pricing
    data and no coupon, the fetch that returns the plan [p1] discounted to 10,
    the default coupon [D1] and [D1] as applied coupon does not infer the
    default coupon: the validation runs on the empty pricing data of the
    context and fails, so the payload is stored, [couponToApply] stays
    undefined and the machine rests in [pricesLoaded.withoutCoupon], whatever
    the schema of a plan is. *)
Theorem C1_first_fetch_infers_no_default_coupon
  (schema : Zod.schema JsVal) (now : N) :
  let s := send schema (done_invoke_fetchPricingDataService Scenario.payload_D1)
             (start Scenario.context_p1 now) in
  value s = pricesLoaded withoutCoupon /\
  couponToApply (context s) = None /\
  pricingData (context s) = Scenario.payload_D1 /\
  extractAppliedDefaultCoupon Scenario.payload_D1 =
    only_couponToApply (Some {| couponCode := JStr "D1"; couponType := default |}).
Proof. repeat split. Qed.

(** ** A payload that fails the validation *)

(** C2: the validation is run on the pricing data the context holds, not on
    the payload.  With valid data in the context (a plan [p1] without
    discounted price) and the regional coupon [P1] applied, a payload whose
    plans fail the validation is stored as it is, and [couponToApply] is
    cleared instead of being left as it was. *)
Theorem C2_invalid_payload_over_valid_data_clears_coupon :
  let before :=
    run specPricingPlanSchema
      [done_invoke_fetchPricingDataService Scenario.payload_undiscounted;
       APPLY_PPP_COUPON]
      (start Scenario.context_p1 0) in
  let after :=
    send specPricingPlanSchema
      (done_invoke_fetchPricingDataService Scenario.payload_plan_without_id) before in
  plansSchema specPricingPlanSchema Scenario.payload_plan_without_id = None /\
  value before = loadingPrices /\
  couponToApply (context before) = Some {| couponCode := JStr "P1"; couponType := ppp |} /\
  pricingData (context after) = Scenario.payload_plan_without_id /\
  couponToApply (context after) = None /\
  value after = pricesLoaded withoutCoupon.
Proof. repeat split. Qed.

(** C3: the inference step sets [couponToApply] only when the payload has
    [available_coupons.default] and [applied_coupon] and their coupon codes
    are equal, and then to the applied code with the type [default]; when the
    codes differ or one of the two records is missing the step changes
    nothing in the context.  A fetch that reaches the step (valid data, a
    discounted price that is not empty) leaves in [couponToApply] what the
    step leaves. *)
Theorem C3_default_coupon_inference
  (context : CommerceMachineContext) (data : JsVal) :
  let available := Js.get (Js.get data "available_coupons") "default" in
  let applied := Js.get data "applied_coupon" in
  let context' := assign context (extractAppliedDefaultCoupon data) in
  (forall c, set_couponToApply (extractAppliedDefaultCoupon data) = Some c ->
     available <> JUndefined /\ applied <> JUndefined /\
     Js.strict_eq (Js.get available "coupon_code") (Js.get applied "coupon_code") = true /\
     c = Some {| couponCode := Js.get applied "coupon_code"; couponType := default |} /\
     couponToApply context' = c) /\
  (available = JUndefined \/ applied = JUndefined \/
   Js.strict_eq (Js.get available "coupon_code") (Js.get applied "coupon_code") = false ->
     extractAppliedDefaultCoupon data = no_change /\ context' = context) /\
  (forall schema,
     couponToApply
       (assign context
          (assignPricingData schema context (done_invoke_fetchPricingDataService data))) =
     match plansSchema schema (pricingData context) with
     | None => couponToApply context
     | Some plans =>
         if Js.isEmpty (Js.get (currentPlan plans context) "price_discounted")
         then None
         else couponToApply context'
     end).
Proof.
  cbv zeta. split; [|split].
  - intros c. unfold extractAppliedDefaultCoupon.
    destruct (Js.isEmpty (Js.get (Js.get data "available_coupons") "default")) eqn:Ha;
      [discriminate|].
    destruct (Js.isEmpty (Js.get data "applied_coupon")) eqn:Hb; [discriminate|].
    destruct (Js.strict_eq _ _) eqn:He; [|discriminate].
    simpl. intros [= <-].
    repeat split; auto using isEmpty_false_defined.
  - intros H.
    assert (extractAppliedDefaultCoupon data = no_change) as ->.
    { unfold extractAppliedDefaultCoupon.
      destruct H as [-> | [-> | H]].
      - reflexivity.
      - now rewrite orb_true_r.
      - rewrite H. now destruct (_ || _). }
    split; [reflexivity | apply assign_no_change].
  - intros schema. apply couponToApply_assignPricingData.
Qed.

(** On the payload whose applied coupon is [OTHER] the step changes nothing;
    on the one whose applied coupon is [D1] it sets the default coupon. *)
Lemma C3_default_coupon_inference_witness :
  assign Scenario.context_p1 (extractAppliedDefaultCoupon Scenario.payload_OTHER) =
    Scenario.context_p1 /\
  couponToApply
    (assign Scenario.context_p1 (extractAppliedDefaultCoupon Scenario.payload_D1)) =
    Some {| couponCode := JStr "D1"; couponType := default |}.
Proof.
  destruct (C3_default_coupon_inference Scenario.context_p1 Scenario.payload_OTHER)
    as (_ & Hdiffer & _).
  destruct (C3_default_coupon_inference Scenario.context_p1 Scenario.payload_D1)
    as (Hset & _ & _).
  split.
  - apply Hdiffer. right; right. reflexivity.
  - destruct (Hset _ eq_refl) as (_ & _ & _ & Hc & ->). exact Hc.
Defined.

(** ** A plan without discounted price *)

(** C4: a first payload without plans that offers the regional coupon [P1]
    is stored as it is; the plan [p1] is selected and the coupon applied; the
    next fetch returns [p1] without discounted price.  The validation runs on
    the stored payload and fails, so [couponToApply] keeps the regional
    coupon although the selected plan of the fetched payload has no
    discounted price.  The same happens on the first fetch of a machine
    created with the plan selected and the coupon set: its pricing data are
    still empty. *)
Theorem C4_undiscounted_plan_keeps_coupon :
  let s :=
    run specPricingPlanSchema
      [done_invoke_fetchPricingDataService Scenario.payload_ppp_no_plans;
       SWITCH_PRICE "p1";
       APPLY_PPP_COUPON;
       done_invoke_fetchPricingDataService Scenario.payload_undiscounted]
      (start initial_context 0) in
  let first :=
    send specPricingPlanSchema
      (done_invoke_fetchPricingDataService Scenario.payload_undiscounted)
      (start Scenario.context_P1 0) in
  plansSchema specPricingPlanSchema Scenario.payload_undiscounted =
    Some [Scenario.plan_p1_undiscounted] /\
  Js.get Scenario.plan_p1_undiscounted "price_discounted" = JUndefined /\
  (pricingData (context s) = Scenario.payload_undiscounted /\
   currentPlan [Scenario.plan_p1_undiscounted] (context s) =
     Scenario.plan_p1_undiscounted /\
   couponToApply (context s) = Some {| couponCode := JStr "P1"; couponType := ppp |} /\
   value s = pricesLoaded withPPPCoupon) /\
  (pricingData (context first) = Scenario.payload_undiscounted /\
   currentPlan [Scenario.plan_p1_undiscounted] (context first) =
     Scenario.plan_p1_undiscounted /\
   couponToApply (context first) =
     Some {| couponCode := JStr "P1"; couponType := ppp |} /\
   value first = pricesLoaded withPPPCoupon).
Proof. repeat split. Qed.

(** ** The interpreter *)

Section Interpreter.

Variable schema : Zod.schema JsVal.

Lemma send_Stopped event s : status s = Stopped -> send schema event s = s.
Proof. unfold send. now intros ->. Qed.

Lemma frozen_send event s0 s : frozen s0 s -> frozen s0 (send schema event s).
Proof. intros H. rewrite send_Stopped; [assumption | apply H]. Qed.

Lemma frozen_advance now s0 s : frozen s0 s -> frozen s0 (advance schema now s).
Proof.
  intros (Hs & Hv & Hc & He). unfold advance, frozen.
  destruct (deadline s) as [d|]; [destruct (d <=? now)%N|];
    rewrite ?send_Stopped by assumption; simpl; auto.
Qed.

Lemma frozen_run_at timed : forall s0 s,
  frozen s0 s -> frozen s0 (run_at schema timed s).
Proof.
  unfold run_at. induction timed as [|[t e] timed IH]; simpl; intros s0 s H.
  - assumption.
  - apply IH. unfold send_at. simpl. now apply frozen_send, frozen_advance.
Qed.

Lemma run_Stopped events : forall s,
  status s = Stopped -> run schema events s = s.
Proof.
  unfold run. induction events as [|e events IH]; simpl; intros s H.
  - reflexivity.
  - rewrite send_Stopped by assumption. now apply IH.
Qed.

(** From any state the machine has a transition for [CHANGE_QUANTITY]: the
    one of [debouncingQuantityChange], or the machine's own. *)
Lemma transition_CHANGE_QUANTITY v c q :
  transition schema v c (CHANGE_QUANTITY q) =
  Some (debouncingQuantityChange, assign c (updateQuantity (CHANGE_QUANTITY q)), []).
Proof. each_state v; reflexivity. Qed.

Lemma send_after_500_Running s :
  status s = Running -> status (send schema after_500 s) = Running.
Proof.
  intros H. unfold send. rewrite H.
  each_state (value s); simpl; solve [reflexivity | assumption].
Qed.

Lemma advance_Running now s :
  status s = Running -> status (advance schema now s) = Running.
Proof.
  intros H. unfold advance.
  destruct (deadline s) as [d|]; [destruct (d <=? now)%N|]; simpl;
    auto using send_after_500_Running.
Qed.

Lemma clock_advance now s : clock (advance schema now s) = N.max (clock s) now.
Proof. reflexivity. Qed.

Lemma context_advance now s : context (advance schema now s) = context s.
Proof.
  unfold advance.
  destruct (deadline s) as [d|]; [destruct (d <=? now)%N|]; simpl; try reflexivity.
  unfold send. destruct (status s); [|reflexivity].
  each_state (value s); reflexivity.
Qed.

End Interpreter.

(** ** The failed fetch *)

(** C5: when the pricing request is rejected in [loadingPrices] the machine
    goes to [pricingFetchFailed], and stays there whatever events follow and
    whenever they arrive: the state, the context and the requests made so
    far are those of the moment of the failure, so nothing is fetched
    again. *)
Theorem C5_fetch_failure_is_terminal
  (schema : Zod.schema JsVal) (s : Service)
  (Hrunning : status s = Running) (Hloading : value s = loadingPrices) :
  let failed := send schema error_platform_fetchPricingDataService s in
  value failed = pricingFetchFailed /\
  effects failed = effects s /\
  (forall event, send schema event failed = failed) /\
  (forall events, run schema events failed = failed) /\
  (forall timed,
     value (run_at schema timed failed) = pricingFetchFailed /\
     context (run_at schema timed failed) = context failed /\
     effects (run_at schema timed failed) = effects failed).
Proof.
  cbv zeta.
  assert (Hstopped :
            status (send schema error_platform_fetchPricingDataService s) = Stopped).
  { unfold send. rewrite Hrunning, Hloading. reflexivity. }
  assert (Hvalue :
            value (send schema error_platform_fetchPricingDataService s)
            = pricingFetchFailed).
  { unfold send. rewrite Hrunning, Hloading. reflexivity. }
  repeat split.
  - exact Hvalue.
  - unfold send. rewrite Hrunning, Hloading. simpl. now rewrite app_nil_r.
  - intros event. now apply send_Stopped.
  - intros events. now apply run_Stopped.
  - rewrite <- Hvalue. apply (frozen_run_at schema timed). repeat split. exact Hstopped.
  - apply (frozen_run_at schema timed). repeat split. exact Hstopped.
  - apply (frozen_run_at schema timed). repeat split. exact Hstopped.
Qed.

(** The very first request of the machine is rejected; a change of quantity,
    the two coupon events, a switch of plan, a checkout and a late result of
    the request leave the machine where it is. *)
Lemma C5_fetch_failure_is_terminal_witness :
  let failed :=
    send specPricingPlanSchema error_platform_fetchPricingDataService
      (start initial_context 0) in
  value failed = pricingFetchFailed /\
  run specPricingPlanSchema
    [CHANGE_QUANTITY 3; APPLY_PPP_COUPON; REMOVE_PPP_COUPON; SWITCH_PRICE "p1";
     CONFIRM_PRICE 0; done_invoke_fetchPricingDataService Scenario.payload_D1;
     after_500]
    failed = failed.
Proof.
  destruct (C5_fetch_failure_is_terminal specPricingPlanSchema
              (start initial_context 0) eq_refl eq_refl)
    as (Hvalue & _ & _ & Hrun & _).
  split; [exact Hvalue | apply Hrun].
Defined.

(** ** Bursts of quantity changes *)

Section Debounce.

Variable schema : Zod.schema JsVal.

Lemma send_CHANGE_QUANTITY_Running q s :
  status s = Running ->
  debouncing (effects s) (couponToApply (context s)) (clock s) q
    (send schema (CHANGE_QUANTITY q) s).
Proof.
  intros H. unfold send. rewrite H, transition_CHANGE_QUANTITY. simpl.
  unfold debouncing; simpl. rewrite app_nil_r. repeat split.
Qed.

Lemma debouncing_send_at E C t q t' q' s :
  debouncing E C t q s -> (t <= t')%N -> (t' < t + 500)%N ->
  debouncing E C t' q' (send_at schema t' (CHANGE_QUANTITY q') s).
Proof.
  intros (Hs & Hv & Hc & Hd & Hq & Hcoupon & He) Hle Hlt.
  unfold send_at.
  assert (Hadv : advance schema t' s =
                 {| status := status s; value := value s; context := context s;
                    clock := t'; deadline := deadline s; effects := effects s |}).
  { unfold advance. rewrite Hd.
    destruct (N.leb_spec (t + 500) t') as [Hdue|_]; [lia|].
    rewrite Hc. replace (N.max t t') with t' by lia. now rewrite Hd. }
  rewrite Hadv.
  pose proof (send_CHANGE_QUANTITY_Running q'
                {| status := status s; value := value s; context := context s;
                   clock := t'; deadline := deadline s; effects := effects s |} Hs) as H.
  rewrite <- Hcoupon, <- He. exact H.
Qed.

Lemma last_cons_default {A} (a d d' : A) (l : list A) :
  last (a :: l) d = last (a :: l) d'.
Proof.
  revert a. induction l as [|b l IH]; intros a; [reflexivity|].
  change (last (b :: l) d = last (b :: l) d'). apply IH.
Qed.

Lemma debouncing_burst E C rest : forall t q s,
  debouncing E C t q s -> spaced t rest = true ->
  debouncing E C (fst (last ((t, q) :: rest) (t, q)))
    (snd (last ((t, q) :: rest) (t, q)))
    (run_at schema (quantity_changes rest) s).
Proof.
  induction rest as [|[t' q'] rest IH]; intros t q s Hs Hspaced.
  - exact Hs.
  - simpl in Hspaced.
    apply andb_prop in Hspaced as [Hspaced Hrest].
    apply andb_prop in Hspaced as [Hle Hlt].
    apply N.leb_le in Hle. apply N.ltb_lt in Hlt.
    change (last ((t, q) :: (t', q') :: rest) (t, q))
      with (last ((t', q') :: rest) (t, q)).
    rewrite (last_cons_default (t', q') (t, q) (t', q')).
    change (run_at schema (quantity_changes ((t', q') :: rest)) s)
      with (run_at schema (quantity_changes rest)
              (send_at schema t' (CHANGE_QUANTITY q') s)).
    apply IH; [|exact Hrest].
    now apply debouncing_send_at with (t := t) (q := q).
Qed.

(** Before its deadline a waiting service only sees time pass; at the
    deadline it goes to [loadingPrices] and makes one request. *)
Lemma debouncing_advance E C t q now s :
  debouncing E C t q s ->
  ((now < t + 500)%N ->
     value (advance schema now s) = debouncingQuantityChange /\
     effects (advance schema now s) = E) /\
  ((t + 500 <= now)%N ->
     value (advance schema now s) = loadingPrices /\
     effects (advance schema now s) =
       (E ++ [LoadPricingData q
                (match C with Some c => couponCode c | None => JUndefined end)])%list).
Proof.
  intros (Hs & Hv & Hc & Hd & Hq & Hcoupon & He).
  unfold advance. rewrite Hd. split; intros H.
  - destruct (N.leb_spec (t + 500) now) as [Hdue|_]; [lia|]. simpl. auto.
  - destruct (N.leb_spec (t + 500) now) as [_|Hearly]; [|lia].
    unfold send. rewrite Hs, Hv. simpl.
    unfold fetchPricingData. rewrite Hq, Hcoupon, He. auto.
Qed.

End Debounce.

(** C6, as the claim has it, at the failed machine: the change of quantity
    is ignored, the machine stays in [pricingFetchFailed] and the quantity
    stays 1. *)
Lemma C6_quantity_change_ignored_after_failure :
  let failed :=
    send specPricingPlanSchema error_platform_fetchPricingDataService
      (start initial_context 0) in
  let s := send_at specPricingPlanSchema 10 (CHANGE_QUANTITY 5) failed in
  value s <> debouncingQuantityChange /\ quantity (context s) <> 5%Z.
Proof. split; discriminate. Qed.

(** C6: a change of quantity received by a running service (in any state
    but the final one) takes it to [debouncingQuantityChange] and sets the
    quantity at once.  Through a burst of further changes, each less than
    500ms after the one before, the service stays there with the last
    quantity and asks nothing more of the outside; it still has not until
    500ms after the last change, and from then on it is in [loadingPrices]
    and has made exactly one more request, for the last quantity. *)
Theorem C6_quantity_changes_are_debounced
  (schema : Zod.schema JsVal) (s : Service) (t1 : N) (q1 : Z)
  (rest : list (N * Z))
  (Hrunning : status s = Running)
  (Hclock : (clock s <= t1)%N)
  (Hspaced : spaced t1 rest = true) :
  let s1 := send_at schema t1 (CHANGE_QUANTITY q1) s in
  let sn := run_at schema (quantity_changes rest) s1 in
  let tn := fst (last ((t1, q1) :: rest) (t1, q1)) in
  let qn := snd (last ((t1, q1) :: rest) (t1, q1)) in
  (value s1 = debouncingQuantityChange /\ quantity (context s1) = q1) /\
  (value sn = debouncingQuantityChange /\ quantity (context sn) = qn /\
   effects sn = effects s1) /\
  (forall now, (now < tn + 500)%N ->
     value (advance schema now sn) = debouncingQuantityChange /\
     effects (advance schema now sn) = effects s1) /\
  (forall now, (tn + 500 <= now)%N ->
     value (advance schema now sn) = loadingPrices /\
     effects (advance schema now sn) =
       (effects s1 ++ [LoadPricingData qn
                         (match couponToApply (context s) with
                          | Some c => couponCode c
                          | None => JUndefined
                          end)])%list).
Proof.
  cbv zeta.
  set (s1 := send_at schema t1 (CHANGE_QUANTITY q1) s).
  assert (H1 : debouncing (effects s1) (couponToApply (context s1)) t1 q1 s1).
  { unfold s1, send_at.
    pose proof (send_CHANGE_QUANTITY_Running schema q1 (advance schema t1 s)
                  (advance_Running schema t1 s Hrunning)) as H.
    rewrite clock_advance in H.
    replace (N.max (clock s) t1) with t1 in H by lia.
    destruct H as (Hs & Hv & Hc & Hd & Hq & _ & _).
    repeat split; assumption. }
  assert (Hcoupon : couponToApply (context s1) = couponToApply (context s)).
  { unfold s1, send_at.
    destruct (send_CHANGE_QUANTITY_Running schema q1 (advance schema t1 s)
                (advance_Running schema t1 s Hrunning))
      as (_ & _ & _ & _ & _ & -> & _).
    now rewrite context_advance. }
  pose proof (debouncing_burst schema _ _ rest t1 q1 s1 H1 Hspaced) as Hn.
  split; [|split; [|split]].
  - destruct H1 as (_ & Hv & _ & _ & Hq & _). auto.
  - destruct Hn as (_ & Hv & _ & _ & Hq & _ & He). auto.
  - intros now Hnow.
    apply (proj1 (debouncing_advance schema _ _ _ _ now _ Hn) Hnow).
  - intros now Hnow. rewrite <- Hcoupon.
    apply (proj2 (debouncing_advance schema _ _ _ _ now _ Hn) Hnow).
Qed.

(** The machine has loaded prices; the quantity is typed as 2, 23 and 235
    within 400ms.  The one request that follows is for 235. *)
Lemma C6_quantity_changes_are_debounced_witness :
  let s :=
    send specPricingPlanSchema
      (done_invoke_fetchPricingDataService Scenario.payload_ppp)
      (start initial_context 0) in
  let sn :=
    run_at specPricingPlanSchema
      [(1000%N, CHANGE_QUANTITY 2); (1200%N, CHANGE_QUANTITY 23);
       (1400%N, CHANGE_QUANTITY 235)] s in
  value (advance specPricingPlanSchema 1899 sn) = debouncingQuantityChange /\
  effects (advance specPricingPlanSchema 1899 sn) = [LoadPricingData 1 JUndefined] /\
  value (advance specPricingPlanSchema 1900 sn) = loadingPrices /\
  effects (advance specPricingPlanSchema 1900 sn) =
    [LoadPricingData 1 JUndefined; LoadPricingData 235 JUndefined].
Proof.
  destruct (C6_quantity_changes_are_debounced specPricingPlanSchema
              (send specPricingPlanSchema
                 (done_invoke_fetchPricingDataService Scenario.payload_ppp)
                 (start initial_context 0))
              1000 2 [(1200%N, 23%Z); (1400%N, 235%Z)]
              eq_refl ltac:(vm_compute; discriminate) eq_refl)
    as (_ & _ & Hearly & Hdue).
  destruct (Hearly 1899%N ltac:(vm_compute; reflexivity)) as [Hv1 He1].
  destruct (Hdue 1900%N ltac:(vm_compute; discriminate)) as [Hv2 He2].
  repeat split; assumption.
Defined.


(** ** The regional coupon *)

(** The schema of [applyPPPCoupon] succeeds exactly when
    [pricingData.available_coupons.ppp.coupon_code] is a string. *)
Lemma pppCouponSchema_spec (pricingData : JsVal) :
  pppCouponSchema pricingData =
  match Js.get (findAvailablePPPCoupon pricingData) "coupon_code" with
  | JStr code => Some {| couponCode := JStr code; couponType := ppp |}
  | _ => None
  end.
Proof.
  unfold pppCouponSchema, findAvailablePPPCoupon, Zod.field, Zod.string_.
  destruct pricingData as [| | | | | |top]; try reflexivity.
  destruct (Js.get (JObj top) "available_coupons") as [| | | | | |coupons];
    try reflexivity.
  destruct (Js.get (JObj coupons) "ppp") as [| | | | | |regional]; try reflexivity.
  destruct (Js.get (JObj regional) "coupon_code"); reflexivity.
Qed.

Lemma send_APPLY_PPP_COUPON schema s :
  status s = Running ->
  value s = pricesLoaded withDefaultCoupon \/ value s = pricesLoaded withoutCoupon ->
  send schema APPLY_PPP_COUPON s =
  {| status := Running;
     value := loadingPrices;
     context := assign (context s) (applyPPPCoupon (context s));
     clock := clock s;
     deadline := None;
     effects :=
       (effects s ++
        [fetchPricingData (assign (context s) (applyPPPCoupon (context s)))])%list |}.
Proof.
  intros Hs Hv. unfold send. rewrite Hs. destruct Hv as [-> | ->]; reflexivity.
Qed.

(** C7: in [withDefaultCoupon] or [withoutCoupon], [APPLY_PPP_COUPON] takes
    the machine to [loadingPrices].  When
    [pricingData.available_coupons.ppp.coupon_code] is there, a string, the
    coupon to apply becomes that code with the type [ppp], and exactly one
    request is made, with that code; when it is not, the coupon to apply is
    undefined, and the one request is made without a coupon. *)
Theorem C7_apply_ppp_coupon
  (schema : Zod.schema JsVal) (s : Service)
  (Hrunning : status s = Running)
  (Hvalue : value s = pricesLoaded withDefaultCoupon \/
            value s = pricesLoaded withoutCoupon) :
  let s' := send schema APPLY_PPP_COUPON s in
  let coupon_code :=
    Js.get (findAvailablePPPCoupon (pricingData (context s))) "coupon_code" in
  value s' = loadingPrices /\
  (forall code, coupon_code = JStr code ->
     couponToApply (context s') =
       Some {| couponCode := JStr code; couponType := ppp |} /\
     effects s' =
       (effects s ++ [LoadPricingData (quantity (context s)) (JStr code)])%list) /\
  ((forall code, coupon_code <> JStr code) ->
     couponToApply (context s') = None /\
     effects s' =
       (effects s ++ [LoadPricingData (quantity (context s)) JUndefined])%list).
Proof.
  cbv zeta. rewrite (send_APPLY_PPP_COUPON schema s Hrunning Hvalue).
  unfold fetchPricingData, applyPPPCoupon. simpl.
  rewrite pppCouponSchema_spec.
  split; [reflexivity|split].
  - intros code ->. split; reflexivity.
  - intros Hnone.
    destruct (Js.get (findAvailablePPPCoupon (pricingData (context s))) "coupon_code")
      as [| | | |code| |]; try (split; reflexivity).
    now destruct (Hnone code).
Qed.

(** Prices are loaded without coupon from a payload that offers the
    regional coupon [P1]: applying it sets [{P1, ppp}] and asks for the
    prices with [P1]. *)
Lemma C7_apply_ppp_coupon_witness :
  let s :=
    send specPricingPlanSchema
      (done_invoke_fetchPricingDataService Scenario.payload_ppp)
      (start Scenario.context_p1 0) in
  let s' := send specPricingPlanSchema APPLY_PPP_COUPON s in
  value s = pricesLoaded withoutCoupon /\
  value s' = loadingPrices /\
  couponToApply (context s') = Some {| couponCode := JStr "P1"; couponType := ppp |} /\
  effects s' = [LoadPricingData 1 JUndefined; LoadPricingData 1 (JStr "P1")].
Proof.
  destruct (C7_apply_ppp_coupon specPricingPlanSchema
              (send specPricingPlanSchema
                 (done_invoke_fetchPricingDataService Scenario.payload_ppp)
                 (start Scenario.context_p1 0))
              eq_refl (or_intror eq_refl))
    as (Hvalue & Hpresent & _).
  destruct (Hpresent "P1" eq_refl) as [Hcoupon Heffects].
  repeat split; assumption.
Defined.

(** C10: in [withDefaultCoupon], with a default coupon to apply and pricing
    data in which [available_coupons.ppp] does not pass the schema,
    [APPLY_PPP_COUPON] assigns undefined to [couponToApply], so the default
    coupon is gone, and the machine goes to [loadingPrices] and asks for the
    prices without a coupon. *)
Theorem C10_apply_ppp_coupon_discards_default
  (schema : Zod.schema JsVal) (s : Service) (c : CouponToApply)
  (Hrunning : status s = Running)
  (Hvalue : value s = pricesLoaded withDefaultCoupon)
  (Hcoupon : couponToApply (context s) = Some c)
  (Hdefault : couponType c = default)
  (Hinvalid : pppCouponSchema (pricingData (context s)) = None) :
  let s' := send schema APPLY_PPP_COUPON s in
  couponToApply (context s') = None /\
  couponToApply (context s') <> couponToApply (context s) /\
  value s' = loadingPrices /\
  effects s' =
    (effects s ++ [LoadPricingData (quantity (context s)) JUndefined])%list.
Proof.
  cbv zeta. rewrite (send_APPLY_PPP_COUPON schema s Hrunning (or_introl Hvalue)).
  unfold fetchPricingData, applyPPPCoupon. simpl. rewrite Hinvalid, Hcoupon.
  repeat split. discriminate.
Qed.

(** A machine created with the default coupon [D1] loads the payload that
    offers [D1] and no regional coupon, and rests in [withDefaultCoupon];
    applying the regional coupon then drops [D1]. *)
Lemma C10_apply_ppp_coupon_discards_default_witness :
  let s :=
    send specPricingPlanSchema
      (done_invoke_fetchPricingDataService Scenario.payload_D1)
      (start Scenario.context_D1 0) in
  let s' := send specPricingPlanSchema APPLY_PPP_COUPON s in
  value s = pricesLoaded withDefaultCoupon /\
  couponToApply (context s) = Some {| couponCode := JStr "D1"; couponType := default |} /\
  couponToApply (context s') = None /\
  value s' = loadingPrices /\
  effects s' = [LoadPricingData 1 (JStr "D1"); LoadPricingData 1 JUndefined].
Proof.
  destruct (C10_apply_ppp_coupon_discards_default specPricingPlanSchema
              (send specPricingPlanSchema
                 (done_invoke_fetchPricingDataService Scenario.payload_D1)
                 (start Scenario.context_D1 0))
              {| couponCode := JStr "D1"; couponType := default |}
              eq_refl eq_refl eq_refl eq_refl eq_refl)
    as (Hnone & _ & Hvalue & Heffects).
  repeat split; assumption.
Defined.

(** ** Without the regional coupon *)

Lemma pricingIncludesPPPCoupon_assignPricingData schema context event :
  pricingIncludesPPPCoupon context = false ->
  pricingIncludesPPPCoupon (assign context (assignPricingData schema context event)) = false.
Proof.
  intros H.
  destruct event; try (simpl; rewrite assign_no_change; exact H).
  unfold pricingIncludesPPPCoupon.
  rewrite couponToApply_assignPricingData.
  destruct (plansSchema schema (pricingData context)) as [plans|]; [|exact H].
  destruct (Js.isEmpty _); [reflexivity|].
  destruct (extractAppliedDefaultCoupon_cases data) as [-> | ->].
  - rewrite assign_no_change. exact H.
  - reflexivity.
Qed.

Lemma checkingCouponStatus_without_ppp context :
  pricingIncludesPPPCoupon context = false ->
  checkingCouponStatus context = withDefaultCoupon \/
  checkingCouponStatus context = withoutCoupon.
Proof.
  unfold checkingCouponStatus. intros ->.
  destruct (pricingIncludesDefaultCoupon context); auto.
Qed.

(** The completed request in [loadingPrices]. *)
Lemma send_done schema data s :
  status s = Running -> value s = loadingPrices ->
  send schema (done_invoke_fetchPricingDataService data) s =
  let context' :=
    assign (context s)
      (assignPricingData schema (context s)
         (done_invoke_fetchPricingDataService data)) in
  {| status := Running;
     value := pricesLoaded (checkingCouponStatus context');
     context := context';
     clock := clock s;
     deadline := None;
     effects := effects s |}.
Proof.
  intros Hs Hv. unfold send. rewrite Hs, Hv. simpl. now rewrite app_nil_r.
Qed.

Lemma value_loaded_without_ppp schema data context :
  pricingIncludesPPPCoupon context = false ->
  let context' :=
    assign context
      (assignPricingData schema context (done_invoke_fetchPricingDataService data)) in
  pricesLoaded (checkingCouponStatus context') = pricesLoaded withDefaultCoupon \/
  pricesLoaded (checkingCouponStatus context') = pricesLoaded withoutCoupon.
Proof.
  intros H context'.
  destruct (checkingCouponStatus_without_ppp context') as [-> | ->]; auto.
  now apply pricingIncludesPPPCoupon_assignPricingData.
Qed.

(** Every transition but the one of [APPLY_PPP_COUPON] keeps the machine
    without regional coupon. *)
Lemma without_ppp_transition schema v c event v' c' called :
  event <> APPLY_PPP_COUPON ->
  pricingIncludesPPPCoupon c = false ->
  v <> pricesLoaded withPPPCoupon ->
  transition schema v c event = Some (v', c', called) ->
  pricingIncludesPPPCoupon c' = false /\ v' <> pricesLoaded withPPPCoupon.
Proof.
  intros Hevent Hc Hv.
  destruct event; try congruence; unfold transition.
  - (* CHANGE_QUANTITY *)
    each_state v; simpl; intros [= <- <- <-];
      (split; [exact Hc | discriminate]).
  - (* REMOVE_PPP_COUPON *)
    each_state v; simpl; intros H; congruence.
  - (* CONFIRM_PRICE *)
    each_state v; simpl; intros [= <- <- <-];
      (split; [exact Hc | assumption]).
  - (* SWITCH_PRICE *)
    each_state v; simpl; intros [= <- <- <-];
      (split; [exact Hc | assumption]).
  - (* the request completes *)
    each_state v; simpl; intros [= <- <- <-].
    split.
    + now apply pricingIncludesPPPCoupon_assignPricingData.
    + destruct (value_loaded_without_ppp schema data c Hc) as [H | H];
        simpl in H; rewrite H; discriminate.
  - (* the request fails *)
    each_state v; simpl; intros [= <- <- <-].
    split; [exact Hc | discriminate].
  - (* the delay elapses *)
    each_state v; simpl; intros [= <- <- <-].
    split; [exact Hc | discriminate].
Qed.

Lemma without_ppp_send schema event s :
  event <> APPLY_PPP_COUPON -> without_ppp s -> without_ppp (send schema event s).
Proof.
  intros Hevent [Hcoupon Hvalue]. unfold send.
  destruct (status s); [|now split].
  destruct (transition schema (value s) (context s) event) as [[[v' c'] called]|] eqn:Ht;
    [|now split].
  exact (without_ppp_transition schema _ _ _ _ _ _ Hevent Hcoupon Hvalue Ht).
Qed.

Lemma without_ppp_run schema events : forall s,
  ~ In APPLY_PPP_COUPON events -> without_ppp s -> without_ppp (run schema events s).
Proof.
  unfold run. induction events as [|event events IH]; simpl; intros s Hnot Hs.
  - exact Hs.
  - apply IH.
    + intros Hin. apply Hnot. now right.
    + apply without_ppp_send; [|exact Hs].
      intros ->. apply Hnot. now left.
Qed.

(** C8: in [withPPPCoupon], [REMOVE_PPP_COUPON] sets [couponToApply] to
    undefined and takes the machine to [loadingPrices], asking for the prices
    without a coupon.  The fetch that completes next leaves the machine in
    [withDefaultCoupon] or [withoutCoupon]; and whatever events follow, as
    long as none is [APPLY_PPP_COUPON], the machine holds no coupon of type
    [ppp] and is never in [withPPPCoupon]. *)
Theorem C8_remove_ppp_coupon
  (schema : Zod.schema JsVal) (s : Service)
  (Hrunning : status s = Running)
  (Hvalue : value s = pricesLoaded withPPPCoupon) :
  let s' := send schema REMOVE_PPP_COUPON s in
  couponToApply (context s') = None /\
  value s' = loadingPrices /\
  effects s' =
    (effects s ++ [LoadPricingData (quantity (context s)) JUndefined])%list /\
  (forall data,
     let loaded := send schema (done_invoke_fetchPricingDataService data) s' in
     pricingData (context loaded) = data /\
     (value loaded = pricesLoaded withDefaultCoupon \/
      value loaded = pricesLoaded withoutCoupon)) /\
  (forall events, ~ In APPLY_PPP_COUPON events ->
     pricingIncludesPPPCoupon (context (run schema events s')) = false /\
     value (run schema events s') <> pricesLoaded withPPPCoupon).
Proof.
  cbv zeta.
  assert (Hs' : send schema REMOVE_PPP_COUPON s =
                {| status := Running; value := loadingPrices;
                   context := assign (context s) removePPPCoupon;
                   clock := clock s; deadline := None;
                   effects :=
                     (effects s ++
                      [fetchPricingData (assign (context s) removePPPCoupon)])%list |}).
  { unfold send. rewrite Hrunning, Hvalue. reflexivity. }
  assert (Hcleared : pricingIncludesPPPCoupon
                       (context (send schema REMOVE_PPP_COUPON s)) = false)
    by now rewrite Hs'.
  assert (Hstatus : status (send schema REMOVE_PPP_COUPON s) = Running)
    by now rewrite Hs'.
  assert (Hloading : value (send schema REMOVE_PPP_COUPON s) = loadingPrices)
    by now rewrite Hs'.
  split; [now rewrite Hs'|]. split; [exact Hloading|].
  split; [now rewrite Hs'|]. split.
  - intros data. rewrite (send_done schema data _ Hstatus Hloading).
    split.
    + exact (pricingData_assignPricingData schema _ data).
    + exact (value_loaded_without_ppp schema data _ Hcleared).
  - intros events Hnot. apply without_ppp_run; [exact Hnot|].
    split; [exact Hcleared | rewrite Hloading; discriminate].
Qed.

(** The regional coupon [P1] is applied over a stored payload without plans
    and survives the next fetch, so the machine is in [withPPPCoupon];
    removing the coupon and fetching the same payload again ends in
    [withoutCoupon]. *)
Lemma C8_remove_ppp_coupon_witness :
  let s :=
    run specPricingPlanSchema
      [done_invoke_fetchPricingDataService Scenario.payload_ppp_no_plans;
       APPLY_PPP_COUPON;
       done_invoke_fetchPricingDataService Scenario.payload_ppp]
      (start Scenario.context_p1 0) in
  let s' := send specPricingPlanSchema REMOVE_PPP_COUPON s in
  value s = pricesLoaded withPPPCoupon /\
  couponToApply (context s') = None /\
  value s' = loadingPrices /\
  value (run specPricingPlanSchema
           [done_invoke_fetchPricingDataService Scenario.payload_ppp;
            CHANGE_QUANTITY 2; after_500;
            done_invoke_fetchPricingDataService Scenario.payload_ppp] s')
    <> pricesLoaded withPPPCoupon.
Proof.
  destruct (C8_remove_ppp_coupon specPricingPlanSchema
              (run specPricingPlanSchema
                 [done_invoke_fetchPricingDataService Scenario.payload_ppp_no_plans;
                  APPLY_PPP_COUPON;
                  done_invoke_fetchPricingDataService Scenario.payload_ppp]
                 (start Scenario.context_p1 0))
              eq_refl eq_refl)
    as (Hnone & Hvalue & _ & _ & Hnever).
  repeat split; try assumption.
  apply Hnever.
  intros [H | [H | [H | [H | []]]]]; discriminate H.
Defined.

(** ** No plan for the selected price *)

(** What the code does with the list it validates, the plans of the pricing
    data the context held before the fetch: when they pass the validation and
    none of them has the [priceId] of the context as its identifier (an
    undefined [priceId] included), [couponToApply] is set to undefined, and
    the machine rests in [withoutCoupon]. *)
Theorem no_matching_plan_in_context_clears_coupon
  (schema : Zod.schema JsVal) (s : Service) (data : JsVal) (plans : list JsVal)
  (Hrunning : status s = Running)
  (Hvalue : value s = loadingPrices)
  (Hvalid : plansSchema schema (pricingData (context s)) = Some plans)
  (Hnone : forall plan, In plan plans ->
             Js.strict_eq (Js.get plan "stripe_price_id")
               (js_of_priceId (priceId (context s))) = false) :
  let s' := send schema (done_invoke_fetchPricingDataService data) s in
  couponToApply (context s') = None /\
  set_couponToApply
    (assignPricingData schema (context s) (done_invoke_fetchPricingDataService data)) =
    Some None /\
  pricingData (context s') = data /\
  value s' = pricesLoaded withoutCoupon.
Proof.
  cbv zeta.
  assert (Hplan : currentPlan plans (context s) = JUndefined).
  { unfold currentPlan. now apply find_none. }
  assert (Hassign :
            assignPricingData schema (context s)
              (done_invoke_fetchPricingDataService data) =
            spread (only_pricingData data) (only_couponToApply None)).
  { unfold assignPricingData. rewrite Hvalid, Hplan. reflexivity. }
  rewrite (send_done schema data s Hrunning Hvalue). cbv zeta.
  rewrite Hassign. repeat split.
Qed.

(** Prices were loaded before any plan was selected, the quantity changed,
    and the prices are fetched again: [priceId] is undefined, no plan has
    it, and the coupon to apply is undefined after the fetch. *)
Lemma no_matching_plan_in_context_clears_coupon_example :
  let s :=
    run specPricingPlanSchema
      [done_invoke_fetchPricingDataService Scenario.payload_ppp;
       CHANGE_QUANTITY 2; after_500]
      (start initial_context 0) in
  let s' :=
    send specPricingPlanSchema
      (done_invoke_fetchPricingDataService Scenario.payload_D1) s in
  priceId (context s) = None /\
  plansSchema specPricingPlanSchema (pricingData (context s)) = Some [Scenario.plan_p1] /\
  couponToApply (context s') = None /\
  value s' = pricesLoaded withoutCoupon.
Proof.
  destruct (no_matching_plan_in_context_clears_coupon specPricingPlanSchema
              (run specPricingPlanSchema
                 [done_invoke_fetchPricingDataService Scenario.payload_ppp;
                  CHANGE_QUANTITY 2; after_500]
                 (start initial_context 0))
              Scenario.payload_D1 [Scenario.plan_p1] eq_refl eq_refl eq_refl)
    as (Hnone & _ & _ & Hvalue).
  - intros plan [<- | []]. reflexivity.
  - repeat split; assumption.
Defined.

(** C9: the machine as it is created stores a first payload without plans
    that offers the regional coupon [P1], and the coupon is applied; no plan
    was ever selected, so [priceId] is undefined.  The next fetch returns a
    payload whose plans pass the validation and of which none has an
    undefined identifier.  The validation runs on the stored payload and
    fails, so [couponToApply] is not set to undefined: it keeps the regional
    coupon and the machine rests in [withPPPCoupon]. *)
Theorem C9_unmatched_plan_keeps_coupon :
  let before :=
    run specPricingPlanSchema
      [done_invoke_fetchPricingDataService Scenario.payload_ppp_no_plans;
       APPLY_PPP_COUPON]
      (start initial_context 0) in
  let after :=
    send specPricingPlanSchema
      (done_invoke_fetchPricingDataService Scenario.payload_ppp) before in
  value before = loadingPrices /\
  priceId (context before) = None /\
  couponToApply (context before) =
    Some {| couponCode := JStr "P1"; couponType := ppp |} /\
  plansSchema specPricingPlanSchema Scenario.payload_ppp = Some [Scenario.plan_p1] /\
  (forall plan, In plan [Scenario.plan_p1] ->
     Js.strict_eq (Js.get plan "stripe_price_id")
       (js_of_priceId (priceId (context before))) = false) /\
  plansSchema specPricingPlanSchema (pricingData (context before)) = None /\
  pricingData (context after) = Scenario.payload_ppp /\
  couponToApply (context after) =
    Some {| couponCode := JStr "P1"; couponType := ppp |} /\
  value after = pricesLoaded withPPPCoupon.
Proof.
  cbv zeta. repeat split.
  intros plan [<- | []]. reflexivity.
Qed.

(** * The rest of the machine *)

(** ** What every state of a service satisfies *)

Section Consistency.

Variable schema : Zod.schema JsVal.

Lemma checkingCouponStatus_switchPrice c p :
  checkingCouponStatus (assign c (switchPrice p)) = checkingCouponStatus c.
Proof. reflexivity. Qed.

Lemma consistent_start context0 now : consistent (start context0 now).
Proof.
  repeat split; try discriminate.
  intros _. exists []. reflexivity.
Qed.

Lemma consistent_send event s : consistent s -> consistent (send schema event s).
Proof.
  intros Hcons. pose proof Hcons as (Hstop & Hsub & Htimer & Hreq). unfold send.
  destruct (status s) eqn:Hs; [|exact Hcons].
  assert (Hnotfinal : value s <> pricingFetchFailed).
  { intros H. apply Hstop in H. discriminate H. }
  destruct (transition schema (value s) (context s) event)
    as [[[v' c'] called]|] eqn:Ht; [|exact Hcons].
  unfold transition in Ht.
  destruct (value s) as [| |st|] eqn:Hv; [| | |congruence].
  - (* loadingPrices *)
    destruct event; simpl in Ht; try discriminate Ht;
      injection Ht as <- <- <-; unfold consistent; simpl;
      repeat split; try discriminate; try congruence; try lia.
  - (* debouncingQuantityChange *)
    destruct event; simpl in Ht; try discriminate Ht;
      injection Ht as <- <- <-; unfold consistent; simpl;
      repeat split; try discriminate; try congruence; try lia.
    intros _. exists (effects s). reflexivity.
  - (* pricesLoaded *)
    pose proof (Hsub st eq_refl) as Hst.
    destruct st; destruct event; simpl in Ht; try discriminate Ht;
      injection Ht as <- <- <-; unfold consistent; simpl;
      repeat split; try discriminate; try congruence; try lia;
      try (intros _; eexists; reflexivity);
      intros st' [= <-]; rewrite checkingCouponStatus_switchPrice; exact Hst.
Qed.

Lemma consistent_advance now s : consistent s -> consistent (advance schema now s).
Proof.
  intros Hs. pose proof Hs as (Hstop & Hsub & Htimer & Hreq).
  unfold advance.
  destruct (deadline s) as [d|] eqn:Hd.
  - destruct Htimer as [Hv [Hlt Hle]].
    destruct (N.leb_spec d now) as [Hdue|Hearly].
    + assert (Hrun : status s = Running).
      { destruct (status s); [reflexivity|].
        pose proof (proj1 Hstop eq_refl). congruence. }
      assert (Hfired : send schema after_500 s =
                       {| status := Running; value := loadingPrices;
                          context := context s; clock := clock s; deadline := None;
                          effects := (effects s ++ [fetchPricingData (context s)])%list |}).
      { unfold send. rewrite Hrun, Hv. reflexivity. }
      rewrite Hfired. unfold consistent. simpl.
      repeat split; try discriminate.
      intros _. exists (effects s). reflexivity.
    + unfold consistent. simpl. rewrite Hd.
      repeat split; try tauto; try lia.
  - unfold consistent. simpl. rewrite Hd. repeat split; tauto.
Qed.

Lemma Reachable_consistent context0 s :
  Reachable schema context0 s -> consistent s.
Proof.
  induction 1; auto using consistent_start, consistent_send, consistent_advance.
Qed.

Lemma Reachable_run_at context0 timed : forall s,
  Reachable schema context0 s -> Reachable schema context0 (run_at schema timed s).
Proof.
  unfold run_at. induction timed as [|[t e] timed IH]; simpl; intros s H.
  - exact H.
  - apply IH. unfold send_at. simpl. now repeat constructor.
Qed.

End Consistency.

Lemma Reachable_execution schema context0 now timed finally :
  Reachable schema context0 (execution schema context0 now timed finally).
Proof.
  unfold execution. apply Reachable_advance, Reachable_run_at, Reachable_start.
Qed.

(** X1: at every moment of every execution the service is stopped exactly when
    the machine is in [pricingFetchFailed]. *)
Theorem stopped_exactly_when_failed schema context0 now timed finally :
  let s := execution schema context0 now timed finally in
  status s = Stopped <-> value s = pricingFetchFailed.
Proof.
  apply (Reachable_consistent schema context0), Reachable_execution.
Qed.

(** X2: at every moment of every execution in which prices are loaded, the
    coupon status is the one the guards give for the coupon to apply:
    [withPPPCoupon] for a coupon of type [ppp], [withDefaultCoupon] for one
    of type [default], [withoutCoupon] for none; a switch of plan or a
    checkout does not break it. *)
Theorem coupon_status_follows_coupon schema context0 now timed finally :
  let s := execution schema context0 now timed finally in
  forall st, value s = pricesLoaded st ->
    match couponToApply (context s) with
    | Some c => st = match couponType c with
                     | ppp => withPPPCoupon
                     | default => withDefaultCoupon
                     end
    | None => st = withoutCoupon
    end.
Proof.
  intros s st Hv.
  destruct (Reachable_consistent schema context0 s
              (Reachable_execution schema context0 now timed finally))
    as (_ & Hsub & _).
  rewrite (Hsub st Hv).
  unfold checkingCouponStatus, pricingIncludesPPPCoupon, pricingIncludesDefaultCoupon.
  destruct (couponToApply (context s)) as [[code []]|]; reflexivity.
Qed.

(** A machine created with the regional coupon [P1] loads its first prices:
    it is in [withPPPCoupon]. *)
Lemma coupon_status_follows_coupon_witness :
  let s :=
    execution specPricingPlanSchema Scenario.context_P1 0
      [(5%N, done_invoke_fetchPricingDataService Scenario.payload_ppp)] 9 in
  value s = pricesLoaded withPPPCoupon /\
  match couponToApply (context s) with
  | Some c => withPPPCoupon = match couponType c with
                              | ppp => withPPPCoupon
                              | default => withDefaultCoupon
                              end
  | None => withPPPCoupon = withoutCoupon
  end.
Proof.
  split; [reflexivity|].
  exact (coupon_status_follows_coupon specPricingPlanSchema Scenario.context_P1 0
           [(5%N, done_invoke_fetchPricingDataService Scenario.payload_ppp)] 9
           withPPPCoupon eq_refl).
Defined.

(** X3: at every moment of every execution a delayed transition is pending
    exactly while the machine is in [debouncingQuantityChange], and it is
    then due later than now and at most 500ms from now. *)
Theorem delay_pending_exactly_when_debouncing schema context0 now timed finally :
  let s := execution schema context0 now timed finally in
  (value s = debouncingQuantityChange <-> deadline s <> None) /\
  (forall d, deadline s = Some d -> (clock s < d <= clock s + 500)%N).
Proof.
  intros s.
  destruct (Reachable_consistent schema context0 s
              (Reachable_execution schema context0 now timed finally))
    as (_ & _ & Htimer & _).
  destruct (deadline s) as [d|].
  - destruct Htimer as [Hv Hd]. repeat split; try discriminate; try tauto;
      injection H as <-; apply Hd.
  - repeat split; try tauto; discriminate.
Qed.

(** X4: at every moment of every execution in which the machine is in
    [loadingPrices], the last thing the service asked of the outside is the
    pricing request for the quantity and the coupon code the context has
    now. *)
Theorem request_in_flight_matches_context schema context0 now timed finally :
  let s := execution schema context0 now timed finally in
  value s = loadingPrices ->
  exists before,
    effects s =
    (before ++ [LoadPricingData (quantity (context s))
                  (match couponToApply (context s) with
                   | Some c => couponCode c
                   | None => JUndefined
                   end)])%list.
Proof.
  intros s.
  apply (Reachable_consistent schema context0 s
           (Reachable_execution schema context0 now timed finally)).
Qed.

(** Prices are loaded, the regional coupon is applied and the quantity
    changed to 3; 500ms later the request in flight is for 3 units with the
    coupon [P1]. *)
Lemma request_in_flight_matches_context_witness :
  exists before,
    effects
      (execution specPricingPlanSchema initial_context 0
         [(5%N, done_invoke_fetchPricingDataService Scenario.payload_ppp);
          (10%N, APPLY_PPP_COUPON); (20%N, CHANGE_QUANTITY 3)] 520) =
    (before ++ [LoadPricingData 3 (JStr "P1")])%list.
Proof.
  exact (request_in_flight_matches_context specPricingPlanSchema initial_context 0
           [(5%N, done_invoke_fetchPricingDataService Scenario.payload_ppp);
            (10%N, APPLY_PPP_COUPON); (20%N, CHANGE_QUANTITY 3)] 520 eq_refl).
Defined.

(** ** Which event changes what *)

Lemma assignPricingData_leaves schema context event :
  set_quantity (assignPricingData schema context event) = None /\
  set_priceId (assignPricingData schema context event) = None.
Proof.
  unfold assignPricingData. destruct event; try (split; reflexivity).
  destruct (plansSchema schema (pricingData context)); [|split; reflexivity].
  destruct (Js.isEmpty _); [split; reflexivity|].
  destruct (extractAppliedDefaultCoupon_cases data) as [-> | ->]; split; reflexivity.
Qed.

Lemma quantity_assignPricingData schema context event :
  quantity (assign context (assignPricingData schema context event)) = quantity context.
Proof.
  unfold assign. simpl.
  now rewrite (proj1 (assignPricingData_leaves schema context event)).
Qed.

Lemma priceId_assignPricingData schema context event :
  priceId (assign context (assignPricingData schema context event)) = priceId context.
Proof.
  unfold assign. simpl.
  now rewrite (proj2 (assignPricingData_leaves schema context event)).
Qed.

(** X5: in every state, the quantity only changes on [CHANGE_QUANTITY], the
    selected price only on [SWITCH_PRICE], the pricing data only when the
    request completes, and the coupon to apply only when the request
    completes or on one of the two coupon events. *)
Theorem context_changes_only_on_its_events schema event s :
  ((forall q, event <> CHANGE_QUANTITY q) ->
     quantity (context (send schema event s)) = quantity (context s)) /\
  ((forall p, event <> SWITCH_PRICE p) ->
     priceId (context (send schema event s)) = priceId (context s)) /\
  ((forall data, event <> done_invoke_fetchPricingDataService data) ->
     pricingData (context (send schema event s)) = pricingData (context s)) /\
  ((forall data, event <> done_invoke_fetchPricingDataService data) ->
   event <> APPLY_PPP_COUPON -> event <> REMOVE_PPP_COUPON ->
     couponToApply (context (send schema event s)) = couponToApply (context s)).
Proof.
  unfold send.
  destruct (status s); [|repeat split].
  repeat split; intros;
    each_state (value s); destruct event; simpl; try reflexivity; try congruence;
    try apply quantity_assignPricingData; try apply priceId_assignPricingData;
    exfalso; match goal with H : forall _, _ <> _ |- _ => now eapply H end.
Qed.

(** A late result of the request changes the pricing data of no state but
    [loadingPrices]; a plan switched while the prices load is lost. *)
Lemma context_changes_only_on_its_events_witness :
  let s := start initial_context 0 in
  priceId (context (send specPricingPlanSchema (CHANGE_QUANTITY 4) s)) = None /\
  quantity (context (send specPricingPlanSchema (SWITCH_PRICE "p1") s)) = 1%Z.
Proof.
  destruct (context_changes_only_on_its_events specPricingPlanSchema
              (CHANGE_QUANTITY 4) (start initial_context 0)) as (_ & Hp & _).
  destruct (context_changes_only_on_its_events specPricingPlanSchema
              (SWITCH_PRICE "p1") (start initial_context 0)) as (Hq & _).
  split.
  - apply Hp. discriminate.
  - apply Hq. discriminate.
Defined.

(** ** Events that are dropped *)

(** X6: outside [pricesLoaded] the two coupon events, the switch of plan and
    the checkout are dropped: the service is exactly as before, so a plan
    switched while the prices load or while a change of quantity is debounced
    is lost and no checkout callback is called. *)
Theorem user_events_dropped_outside_pricesLoaded schema event s
  (Hevent : handled_in_pricesLoaded event = true)
  (Hvalue : forall st, value s <> pricesLoaded st) :
  send schema event s = s.
Proof.
  unfold send. destruct (status s); [|reflexivity].
  each_state (value s); try (now destruct (Hvalue _ eq_refl));
    destruct event; try discriminate Hevent; reflexivity.
Qed.

Lemma user_events_dropped_outside_pricesLoaded_witness :
  let s := start initial_context 0 in
  send specPricingPlanSchema (SWITCH_PRICE "p1") s = s /\
  send specPricingPlanSchema (CONFIRM_PRICE 7)
    (send specPricingPlanSchema (CHANGE_QUANTITY 2) s) =
  send specPricingPlanSchema (CHANGE_QUANTITY 2) s.
Proof.
  split.
  - apply user_events_dropped_outside_pricesLoaded; [reflexivity | discriminate].
  - apply user_events_dropped_outside_pricesLoaded; [reflexivity | discriminate].
Defined.

(** X7: with a regional coupon applied, applying it again is dropped; with a
    default coupon or none, removing the regional coupon is dropped. *)
Theorem coupon_events_dropped_in_the_other_status schema s :
  (value s = pricesLoaded withPPPCoupon -> send schema APPLY_PPP_COUPON s = s) /\
  (value s = pricesLoaded withDefaultCoupon \/ value s = pricesLoaded withoutCoupon ->
     send schema REMOVE_PPP_COUPON s = s).
Proof.
  unfold send. split.
  - intros ->. now destruct (status s).
  - intros [-> | ->]; now destruct (status s).
Qed.

(** X8: the result of the request, or its failure, is dropped in every state but
    [loadingPrices]. *)
Theorem results_dropped_outside_loadingPrices schema data s
  (Hvalue : value s <> loadingPrices) :
  send schema (done_invoke_fetchPricingDataService data) s = s /\
  send schema error_platform_fetchPricingDataService s = s.
Proof.
  unfold send. destruct (status s); [|split; reflexivity].
  each_state (value s); try congruence; split; reflexivity.
Qed.

Lemma results_dropped_outside_loadingPrices_witness :
  let s := send specPricingPlanSchema (CHANGE_QUANTITY 2) (start initial_context 0) in
  send specPricingPlanSchema
    (done_invoke_fetchPricingDataService Scenario.payload_D1) s = s.
Proof.
  apply (results_dropped_outside_loadingPrices specPricingPlanSchema
           Scenario.payload_D1
           (send specPricingPlanSchema (CHANGE_QUANTITY 2) (start initial_context 0))).
  discriminate.
Defined.

(** ** Requests and callbacks *)

Lemma count_requests_app (l1 l2 : list Effect) :
  count_requests (l1 ++ l2) = count_requests l1 + count_requests l2.
Proof.
  induction l1 as [|[q c|cb] l1 IH]; simpl; [reflexivity | now rewrite IH | exact IH].
Qed.

(** X9: an event makes one more pricing request when it takes the machine into
    [loadingPrices], and none otherwise: there are as many requests as
    entries into [loadingPrices]. *)
Theorem one_request_per_entry schema event s :
  count_requests (effects (send schema event s)) =
  count_requests (effects s) +
  (if enters_loadingPrices s (send schema event s) then 1 else 0).
Proof.
  unfold enters_loadingPrices, send.
  destruct (status s).
  2: { destruct (is_loadingPrices (value s)); simpl; lia. }
  destruct (value s) as [| |[]|] eqn:Hv; destruct event; simpl;
    rewrite ?Hv, ?count_requests_app; simpl; lia.
Qed.

(** X10: with prices loaded, checkouts call their callbacks once each, in the
    order of the events, and change neither the state nor the context. *)
Theorem checkouts_call_their_callbacks schema (callbacks : list nat) : forall s st,
  status s = Running -> value s = pricesLoaded st ->
  let s' := run schema (map CONFIRM_PRICE callbacks) s in
  effects s' = (effects s ++ map OnClickCheckout callbacks)%list /\
  value s' = pricesLoaded st /\
  context s' = context s.
Proof.
  unfold run.
  induction callbacks as [|cb callbacks IH]; intros s st Hs Hv; simpl.
  - now rewrite app_nil_r.
  - assert (Hsend : send schema (CONFIRM_PRICE cb) s =
                    {| status := Running; value := pricesLoaded st;
                       context := context s; clock := clock s; deadline := None;
                       effects := (effects s ++ [OnClickCheckout cb])%list |}).
    { unfold send. rewrite Hs, Hv. destruct st; reflexivity. }
    pose proof (IH (send schema (CONFIRM_PRICE cb) s) st) as H.
    rewrite Hsend in H |- *.
    destruct (H eq_refl eq_refl) as (He & Hv' & Hc).
    simpl in He, Hv', Hc. repeat split; try assumption.
    rewrite He, <- app_assoc. reflexivity.
Qed.

Lemma checkouts_call_their_callbacks_witness :
  let s :=
    send specPricingPlanSchema
      (done_invoke_fetchPricingDataService Scenario.payload_ppp)
      (start initial_context 0) in
  effects (run specPricingPlanSchema [CONFIRM_PRICE 1; CONFIRM_PRICE 2] s) =
    [LoadPricingData 1 JUndefined; OnClickCheckout 1; OnClickCheckout 2].
Proof.
  exact (proj1 (checkouts_call_their_callbacks specPricingPlanSchema [1; 2]
                  (send specPricingPlanSchema
                     (done_invoke_fetchPricingDataService Scenario.payload_ppp)
                     (start initial_context 0))
                  withoutCoupon eq_refl eq_refl)).
Defined.

(** ** The selected price *)

(** X11: with prices loaded, [SWITCH_PRICE] selects the price and changes nothing
    else: the coupon status and the coupon to apply stay, even when the new
    plan has no discounted price, and no request is made.  The guard
    [priceHasBeenSelected] then holds exactly when the identifier is not the
    empty string. *)
Theorem switch_price_selects schema p s st
  (Hrunning : status s = Running) (Hvalue : value s = pricesLoaded st) :
  let s' := send schema (SWITCH_PRICE p) s in
  priceId (context s') = Some p /\
  (priceHasBeenSelected (context s') = true <-> p <> "") /\
  value s' = pricesLoaded st /\
  couponToApply (context s') = couponToApply (context s) /\
  pricingData (context s') = pricingData (context s) /\
  quantity (context s') = quantity (context s) /\
  effects s' = effects s.
Proof.
  cbv zeta.
  assert (Hsend : send schema (SWITCH_PRICE p) s =
                  {| status := Running; value := pricesLoaded st;
                     context := assign (context s) (switchPrice p);
                     clock := clock s; deadline := None; effects := effects s |}).
  { unfold send. rewrite Hrunning, Hvalue.
    destruct st; simpl; now rewrite app_nil_r. }
  rewrite Hsend. unfold priceHasBeenSelected. simpl.
  repeat split; destruct p; simpl; congruence.
Qed.

Lemma switch_price_selects_witness :
  let s :=
    send specPricingPlanSchema
      (done_invoke_fetchPricingDataService Scenario.payload_ppp)
      (start initial_context 0) in
  priceHasBeenSelected (context s) = false /\
  priceId (context (send specPricingPlanSchema (SWITCH_PRICE "p1") s)) = Some "p1" /\
  (priceHasBeenSelected
     (context (send specPricingPlanSchema (SWITCH_PRICE "p1") s)) = true <->
   "p1" <> "").
Proof.
  destruct (switch_price_selects specPricingPlanSchema "p1"
              (send specPricingPlanSchema
                 (done_invoke_fetchPricingDataService Scenario.payload_ppp)
                 (start initial_context 0))
              withoutCoupon eq_refl eq_refl) as (Hp & Hg & _).
  repeat split; try assumption; apply Hg.
Defined.

(** ** When the request completes *)

(** X12: whatever the payload and the pricing data held before, a request that
    completes in [loadingPrices] stores the payload, keeps the quantity and
    the selected price, makes no request, and leaves as coupon to apply the
    one held before, none, or the applied coupon of the payload with the
    type [default]. *)
Theorem fetch_completion schema data s
  (Hrunning : status s = Running) (Hvalue : value s = loadingPrices) :
  let s' := send schema (done_invoke_fetchPricingDataService data) s in
  pricingData (context s') = data /\
  quantity (context s') = quantity (context s) /\
  priceId (context s') = priceId (context s) /\
  effects s' = effects s /\
  value s' = pricesLoaded (checkingCouponStatus (context s')) /\
  (couponToApply (context s') = couponToApply (context s) \/
   couponToApply (context s') = None \/
   couponToApply (context s') =
     Some {| couponCode := Js.get (Js.get data "applied_coupon") "coupon_code";
             couponType := default |}).
Proof.
  cbv zeta. rewrite (send_done schema data s Hrunning Hvalue). cbv zeta.
  cbn [context effects value].
  split; [apply pricingData_assignPricingData|].
  split; [apply quantity_assignPricingData|].
  split; [apply priceId_assignPricingData|].
  split; [reflexivity|]. split; [reflexivity|].
  rewrite couponToApply_assignPricingData.
  destruct (plansSchema schema (pricingData (context s))); [|now left].
  destruct (Js.isEmpty _); [now (right; left)|].
  destruct (extractAppliedDefaultCoupon_cases data) as [-> | ->].
  - left. now rewrite assign_no_change.
  - right; right. reflexivity.
Qed.

Lemma fetch_completion_witness :
  let s' :=
    send specPricingPlanSchema
      (done_invoke_fetchPricingDataService Scenario.payload_D1)
      (start Scenario.context_p1 0) in
  pricingData (context s') = Scenario.payload_D1 /\
  priceId (context s') = Some "p1".
Proof.
  destruct (fetch_completion specPricingPlanSchema Scenario.payload_D1
              (start Scenario.context_p1 0) eq_refl eq_refl)
    as (Hd & _ & Hp & _).
  split; assumption.
Defined.

(** ** Discounted prices that are numbers *)

Lemma numeric_discount_isEmpty schema plans context :
  numeric_discount schema ->
  forall v, plansSchema schema v = Some plans ->
  Js.isEmpty (Js.get (currentPlan plans context) "price_discounted") = true.
Proof.
  intros Hnum v Hplans. unfold currentPlan.
  destruct (find_cases
              (fun plan => Js.strict_eq (Js.get plan "stripe_price_id")
                             (js_of_priceId (priceId context))) plans)
    as [-> | [Hin _]]; [reflexivity|].
  unfold plansSchema, Zod.field, Zod.array in Hplans.
  destruct v as [| | | | | |props]; try discriminate.
  destruct (Js.get (JObj props) "plans") as [| | | | |items|]; try discriminate.
  destruct (parse_all_In _ _ _ Hplans _ Hin) as (x & _ & Hx).
  destruct (Hnum _ _ Hx) as [[n ->] | ->]; reflexivity.
Qed.

Lemma numeric_discount_specPricingPlanSchema :
  numeric_discount specPricingPlanSchema.
Proof.
  intros v plan. unfold specPricingPlanSchema.
  destruct (Zod.field "stripe_price_id" Zod.string_ v) as [id|]; [|discriminate].
  destruct (Zod.field "price_discounted" (Zod.optional Zod.number_) v)
    as [[n|]|]; [| |discriminate]; intros [= <-].
  - left. now exists n.
  - now right.
Qed.

(** X13: when the discounted price of a plan is a number, a request that
    completes over pricing data that pass the validation clears the coupon to
    apply, whatever the selected price, the discounted price and the coupons
    of the payload are: [isEmpty] of a number is true. *)
Theorem numeric_discount_clears_coupon schema context data plans
  (Hnumeric : numeric_discount schema)
  (Hvalid : plansSchema schema (pricingData context) = Some plans) :
  couponToApply
    (assign context
       (assignPricingData schema context (done_invoke_fetchPricingDataService data)))
  = None.
Proof.
  rewrite couponToApply_assignPricingData, Hvalid.
  now rewrite (numeric_discount_isEmpty schema plans context Hnumeric _ Hvalid).
Qed.

(** The plan [p1] is discounted to 10 in the context and in the payload,
    and the payload applies the default coupon [D1]: the coupon to apply is
    cleared all the same. *)
Lemma numeric_discount_clears_coupon_witness :
  let context :=
    {| pricingData := Scenario.payload_D1; priceId := Some "p1"; quantity := 1;
       couponToApply := Some {| couponCode := JStr "D1"; couponType := default |} |} in
  couponToApply
    (assign context
       (assignPricingData specPricingPlanSchema context
          (done_invoke_fetchPricingDataService Scenario.payload_D1)))
  = None.
Proof.
  exact (numeric_discount_clears_coupon specPricingPlanSchema
           {| pricingData := Scenario.payload_D1; priceId := Some "p1"; quantity := 1;
              couponToApply :=
                Some {| couponCode := JStr "D1"; couponType := default |} |}
           Scenario.payload_D1 [Scenario.plan_p1]
           numeric_discount_specPricingPlanSchema eq_refl).
Defined.

Lemma without_default_transition schema v c event v' c' called :
  numeric_discount schema ->
  pricingIncludesDefaultCoupon c = false ->
  v <> pricesLoaded withDefaultCoupon ->
  transition schema v c event = Some (v', c', called) ->
  pricingIncludesDefaultCoupon c' = false /\ v' <> pricesLoaded withDefaultCoupon.
Proof.
  intros Hnum Hc Hv. unfold transition.
  assert (Hppp : pricingIncludesDefaultCoupon (assign c (applyPPPCoupon c)) = false).
  { unfold pricingIncludesDefaultCoupon, applyPPPCoupon, pppCouponSchema. simpl.
    now destruct (Zod.field _ _ _). }
  assert (Hdone : forall data,
             pricingIncludesDefaultCoupon
               (assign c (assignPricingData schema c
                            (done_invoke_fetchPricingDataService data))) = false).
  { intros data. unfold pricingIncludesDefaultCoupon.
    rewrite couponToApply_assignPricingData.
    destruct (plansSchema schema (pricingData c)) as [plans|] eqn:Hp; [|exact Hc].
    now rewrite (numeric_discount_isEmpty schema plans c Hnum _ Hp). }
  destruct v as [| |[]|]; destruct event; simpl; try discriminate;
    intros [= <- <- <-];
    try (split; [first [exact Hc | exact Hppp | reflexivity] | first [discriminate | assumption]]).
  split; [apply Hdone|].
  unfold checkingCouponStatus. rewrite Hdone.
  destruct (pricingIncludesPPPCoupon _); discriminate.
Qed.

(** X14: when the discounted price of a plan is a number, a machine that holds
    no default coupon never gets one, whatever events it receives, and so is
    never in [withDefaultCoupon]. *)
Theorem numeric_discount_never_default schema events : forall s,
  numeric_discount schema ->
  without_default s -> without_default (run schema events s).
Proof.
  unfold run. induction events as [|event events IH]; simpl; intros s Hnum Hs.
  - exact Hs.
  - apply IH; [exact Hnum|].
    destruct Hs as [Hc Hv]. unfold send.
    destruct (status s); [|now split].
    destruct (transition schema (value s) (context s) event)
      as [[[v' c'] called]|] eqn:Ht; [|now split].
    exact (without_default_transition schema _ _ _ _ _ _ Hnum Hc Hv Ht).
Qed.

(** The machine as it is created loads twice the payload that applies the
    default coupon [D1] to a discounted plan, and still has no default
    coupon. *)
Lemma numeric_discount_never_default_witness :
  without_default
    (run specPricingPlanSchema
       [done_invoke_fetchPricingDataService Scenario.payload_D1;
        SWITCH_PRICE "p1"; CHANGE_QUANTITY 2; after_500;
        done_invoke_fetchPricingDataService Scenario.payload_D1]
       (start initial_context 0)).
Proof.
  apply numeric_discount_never_default.
  - exact numeric_discount_specPricingPlanSchema.
  - split; [reflexivity | discriminate].
Defined.

(** ** Coupons without codes *)

(** X15: when the default coupon on offer and the applied coupon are both not
    empty and neither has a [coupon_code], the two missing codes are equal:
    the inference sets a default coupon whose code is undefined. *)
Theorem default_coupon_without_codes (data : JsVal)
  (Havailable : Js.isEmpty (Js.get (Js.get data "available_coupons") "default") = false)
  (Happlied : Js.isEmpty (Js.get data "applied_coupon") = false)
  (Hcode1 : Js.get (Js.get (Js.get data "available_coupons") "default") "coupon_code"
            = JUndefined)
  (Hcode2 : Js.get (Js.get data "applied_coupon") "coupon_code" = JUndefined) :
  extractAppliedDefaultCoupon data =
  only_couponToApply (Some {| couponCode := JUndefined; couponType := default |}).
Proof.
  unfold extractAppliedDefaultCoupon.
  now rewrite Havailable, Happlied, Hcode1, Hcode2.
Qed.

(** The two coupons carry their codes under [code]: the codes differ, and
    a default coupon without code is set. *)
Lemma default_coupon_without_codes_witness :
  extractAppliedDefaultCoupon
    (JObj [("available_coupons", JObj [("default", JObj [("code", JStr "D1")])]);
           ("applied_coupon", JObj [("code", JStr "OTHER")])]) =
  only_couponToApply (Some {| couponCode := JUndefined; couponType := default |}).
Proof.
  apply default_coupon_without_codes; reflexivity.
Defined.

(** ** The code of the regional coupon *)

Lemma ppp_code_is_string_transition schema v c event v' c' called :
  ppp_code_is_string c ->
  transition schema v c event = Some (v', c', called) ->
  ppp_code_is_string c'.
Proof.
  intros Hc. unfold transition.
  assert (Happly : ppp_code_is_string (assign c (applyPPPCoupon c))).
  { unfold ppp_code_is_string, applyPPPCoupon. simpl.
    rewrite pppCouponSchema_spec.
    destruct (Js.get (findAvailablePPPCoupon (pricingData c)) "coupon_code");
      try discriminate.
    intros c0 [= <-] _. now eexists. }
  assert (Hdone : forall data,
             ppp_code_is_string
               (assign c (assignPricingData schema c
                            (done_invoke_fetchPricingDataService data)))).
  { intros data. unfold ppp_code_is_string.
    rewrite couponToApply_assignPricingData.
    destruct (plansSchema schema (pricingData c)); [|exact Hc].
    destruct (Js.isEmpty _); [discriminate|].
    destruct (extractAppliedDefaultCoupon_cases data) as [-> | ->].
    - rewrite assign_no_change. exact Hc.
    - simpl. intros c0 [= <-]. discriminate. }
  destruct v as [| |[]|]; destruct event; simpl; try discriminate;
    intros [= <- <- <-];
    first [exact Hc | exact Happly | apply Hdone | (intros c0; discriminate)].
Qed.

(** X16: if the coupon a machine is created with is not a regional coupon with a
    code that is no string, no event ever makes it one: a coupon of type
    [ppp] always carries a string. *)
Theorem ppp_code_stays_a_string schema events : forall s,
  ppp_code_is_string (context s) ->
  ppp_code_is_string (context (run schema events s)).
Proof.
  unfold run. induction events as [|event events IH]; simpl; intros s Hs.
  - exact Hs.
  - apply IH. unfold send.
    destruct (status s); [|exact Hs].
    destruct (transition schema (value s) (context s) event)
      as [[[v' c'] called]|] eqn:Ht; [|exact Hs].
    exact (ppp_code_is_string_transition schema _ _ _ _ _ _ Hs Ht).
Qed.

Lemma ppp_code_stays_a_string_witness :
  ppp_code_is_string
    (context
       (run specPricingPlanSchema
          [done_invoke_fetchPricingDataService Scenario.payload_ppp_no_plans;
           APPLY_PPP_COUPON;
           done_invoke_fetchPricingDataService Scenario.payload_ppp]
          (start initial_context 0))).
Proof.
  apply ppp_code_stays_a_string. intros c H. discriminate H.
Defined.

(** ** What stops the machine *)

Lemma transition_final schema v c event v' c' called :
  transition schema v c event = Some (v', c', called) ->
  is_final v' = true ->
  event = error_platform_fetchPricingDataService.
Proof.
  unfold transition.
  destruct v as [| |[]|]; destruct event; simpl; try discriminate;
    intros [= <- <- <-]; try discriminate; reflexivity.
Qed.

Lemma send_Running schema event s :
  event <> error_platform_fetchPricingDataService ->
  status s = Running -> status (send schema event s) = Running.
Proof.
  intros Hevent Hs. unfold send. rewrite Hs.
  destruct (transition schema (value s) (context s) event)
    as [[[v' c'] called]|] eqn:Ht; [|exact Hs].
  simpl. destruct (is_final v') eqn:Hf; [|reflexivity].
  destruct (Hevent (transition_final schema _ _ _ _ _ _ Ht Hf)).
Qed.

(** X17: only the failure of the request stops the machine: a running service
    stays running through any timed events among which the failure is
    not. *)
Theorem only_the_failure_stops schema timed : forall s,
  status s = Running ->
  ~ In error_platform_fetchPricingDataService (map snd timed) ->
  status (run_at schema timed s) = Running.
Proof.
  unfold run_at. induction timed as [|[t event] timed IH]; simpl; intros s Hs Hnot.
  - exact Hs.
  - apply IH.
    + unfold send_at. simpl. apply send_Running.
      * intros ->. apply Hnot. now left.
      * now apply advance_Running.
    + intros H. apply Hnot. now right.
Qed.

Lemma only_the_failure_stops_witness :
  status
    (run_at specPricingPlanSchema
       [(10%N, done_invoke_fetchPricingDataService Scenario.payload_ppp);
        (20%N, APPLY_PPP_COUPON); (30%N, CHANGE_QUANTITY 3);
        (900%N, done_invoke_fetchPricingDataService Scenario.payload_ppp)]
       (start initial_context 0)) = Running.
Proof.
  apply only_the_failure_stops; [reflexivity|].
  simpl. intros [H | [H | [H | [H | []]]]]; discriminate H.
Defined.

(** * The account page *)

Module UserPageFacts.
Import UserPage.

Lemma first_match_Some {A} (p : A -> bool) (l : list A) (x : A) :
  find p l = Some x ->
  p x = true /\
  exists before after,
    l = (before ++ x :: after)%list /\ forall y, In y before -> p y = false.
Proof.
  induction l as [|a l IH]; simpl; [discriminate|].
  destruct (p a) eqn:Ha.
  - intros [= <-]. split; [exact Ha|]. exists [], l. split; [reflexivity|].
    intros y [].
  - intros H. destruct (IH H) as (Hx & before & after & -> & Hbefore).
    split; [exact Hx|]. exists (a :: before), after. split; [reflexivity|].
    intros y [<- | Hy]; [exact Ha | now apply Hbefore].
Qed.

Lemma first_match_None {A} (p : A -> bool) (l : list A) :
  find p l = None <-> forall y, In y l -> p y = false.
Proof.
  induction l as [|a l IH]; simpl.
  - split; [intros _ y [] | reflexivity].
  - destruct (p a) eqn:Ha.
    + split; [discriminate|]. intros H. rewrite (H a (or_introl eq_refl)) in Ha.
      discriminate Ha.
    + rewrite IH. split.
      * intros H y [<- | Hy]; [exact Ha | now apply H].
      * intros H y Hy. apply H. now right.
Qed.

Lemma is_complete_Some p c : is_complete p = Some c -> c = Js.get p "is_complete".
Proof. destruct p; simpl; intros H; try discriminate; now injection H as <-. Qed.

Lemma is_complete_None p : is_complete p = None <-> p = JUndefined \/ p = JNull.
Proof.
  destruct p; simpl; split; try discriminate; auto; intros [H | H]; discriminate H.
Qed.

Lemma in_progress_filter data : forall kept,
  in_progress data = Some kept ->
  kept = filter (fun p => negb (truthy (Js.get p "is_complete"))) data.
Proof.
  induction data as [|p data IH]; simpl; intros kept H.
  - now injection H as <-.
  - destruct (is_complete p) as [c|] eqn:Hc; [|discriminate].
    destruct (in_progress data) as [rest|]; [|discriminate].
    injection H as <-. rewrite <- (IH rest eq_refl).
    now rewrite (is_complete_Some p c Hc).
Qed.

Lemma in_progress_throws data :
  in_progress data = None <-> exists p, In p data /\ (p = JUndefined \/ p = JNull).
Proof.
  induction data as [|p data IH]; simpl.
  - split; [discriminate | intros (p & [] & _)].
  - destruct (is_complete p) as [c|] eqn:Hc.
    + destruct (in_progress data) as [rest|].
      * split; [discriminate|].
        intros (q & [<- | Hq] & Hnull).
        -- apply is_complete_None in Hnull. congruence.
        -- assert (Some rest = None) as E; [|discriminate E].
           apply IH. now exists q.
      * split; [|reflexivity]. intros _.
        destruct (proj1 IH eq_refl) as (q & Hq & Hnull).
        exists q. split; [now right | exact Hnull].
    + split; [|reflexivity]. intros _. exists p. split; [now left|].
      now apply is_complete_None.
Qed.

End UserPageFacts.

(** X18: [getAccountWithSubscription] returns the first account that has
    subscriptions, whatever comes before it; when no account has any it
    returns the first account; and it returns [{slug: ''}] exactly when there
    are no accounts, the list being empty or undefined. *)
Theorem getAccountWithSubscription_prefers_subscribed
  (accounts : option (list UserPage.ViewerAccount)) :
  let collection := match accounts with Some l => l | None => [] end in
  let result := UserPage.getAccountWithSubscription accounts in
  (forall account,
     In account collection -> UserPage.has_subscriptions account = true ->
     exists chosen before after,
       result = UserPage.AnAccount chosen /\
       UserPage.has_subscriptions chosen = true /\
       collection = (before ++ chosen :: after)%list /\
       forall other, In other before -> UserPage.has_subscriptions other = false) /\
  ((forall account, In account collection ->
      UserPage.has_subscriptions account = false) ->
   result = match collection with
            | account :: _ => UserPage.AnAccount account
            | [] => UserPage.EmptySlug
            end) /\
  (result = UserPage.EmptySlug <-> collection = []) /\
  (forall account, result = UserPage.AnAccount account -> In account collection).
Proof.
  cbv zeta. unfold UserPage.getAccountWithSubscription.
  set (collection := match accounts with Some l => l | None => [] end).
  destruct (UserPage.find UserPage.has_subscriptions collection) as [chosen|] eqn:Hfind.
  - destruct (UserPageFacts.first_match_Some _ _ _ Hfind)
      as (Hchosen & before & after & Hsplit & Hbefore).
    repeat split.
    + intros _ _ _. exists chosen, before, after. auto.
    + intros Hnone. rewrite Hsplit in Hnone.
      rewrite (Hnone chosen) in Hchosen; [discriminate|].
      apply in_or_app. right. now left.
    + discriminate.
    + intros H. rewrite Hsplit in H. now destruct before.
    + intros account [= <-]. rewrite Hsplit. apply in_or_app. right. now left.
  - pose proof (proj1 (UserPageFacts.first_match_None _ _) Hfind) as Hnone.
    repeat split.
    + intros account Hin Hsub. rewrite (Hnone _ Hin) in Hsub. discriminate Hsub.
    + intros _. now destruct collection.
    + destruct collection; [reflexivity | discriminate].
    + intros ->. reflexivity.
    + destruct collection as [|a l]; simpl; [discriminate|].
      intros account [= <-]. now left.
Qed.

(** Of a free account, one with two subscriptions and one with one, the
    second is chosen. *)
Lemma getAccountWithSubscription_prefers_subscribed_witness :
  let free := {| UserPage.stripe_customer_id := "c1"; UserPage.slug := "free";
                 UserPage.subscriptions := Some [] |} in
  let team := {| UserPage.stripe_customer_id := "c2"; UserPage.slug := "team";
                 UserPage.subscriptions := Some [JNum 1; JNum 2] |} in
  let solo := {| UserPage.stripe_customer_id := "c3"; UserPage.slug := "solo";
                 UserPage.subscriptions := Some [JNum 3] |} in
  exists chosen,
    UserPage.getAccountWithSubscription (Some [free; team; solo]) =
      UserPage.AnAccount chosen /\
    UserPage.has_subscriptions chosen = true.
Proof.
  cbv zeta.
  destruct (getAccountWithSubscription_prefers_subscribed
              (Some [ {| UserPage.stripe_customer_id := "c1"; UserPage.slug := "free";
                         UserPage.subscriptions := Some [] |};
                      {| UserPage.stripe_customer_id := "c2"; UserPage.slug := "team";
                         UserPage.subscriptions := Some [JNum 1; JNum 2] |};
                      {| UserPage.stripe_customer_id := "c3"; UserPage.slug := "solo";
                         UserPage.subscriptions := Some [JNum 3] |} ]))
    as (Hsub & _).
  destruct (Hsub {| UserPage.stripe_customer_id := "c3"; UserPage.slug := "solo";
                    UserPage.subscriptions := Some [JNum 3] |})
    as (chosen & _ & _ & Hresult & Hchosen & _).
  - right; right; now left.
  - reflexivity.
  - exists chosen. split; assumption.
Defined.

(** X19: the page asks for an account exactly when the chosen account has a slug
    that is not empty, and then for that slug with the viewer's token; with
    no accounts it asks for none. *)
Theorem account_request_for_the_chosen_slug
  (accounts : option (list UserPage.ViewerAccount)) (authToken : string) :
  let chosen := UserPage.slug_of (UserPage.getAccountWithSubscription accounts) in
  (chosen <> "" ->
     UserPage.account_request accounts authToken = Some (chosen, authToken)) /\
  (chosen = "" -> UserPage.account_request accounts authToken = None) /\
  (accounts = None \/ accounts = Some [] ->
     UserPage.account_request accounts authToken = None).
Proof.
  cbv zeta. unfold UserPage.account_request, UserPage.loadAccountForSlug.
  repeat split.
  - destruct (UserPage.slug_of _); [congruence | reflexivity].
  - intros ->. reflexivity.
  - intros [-> | ->]; reflexivity.
Qed.

(** X20: the list of the resources in progress: filtering throws exactly when an
    entry is [null] or [undefined]; otherwise it keeps, in their order, the
    entries whose [is_complete] is not truthy, an entry without
    [is_complete] among them. *)
Theorem in_progress_keeps_the_incomplete (data : list JsVal) :
  (UserPage.in_progress data = None <->
   exists p, In p data /\ (p = JUndefined \/ p = JNull)) /\
  (forall kept, UserPage.in_progress data = Some kept ->
     kept = filter (fun p => negb (UserPage.truthy (Js.get p "is_complete"))) data /\
     (forall p, In p kept <->
        In p data /\ UserPage.truthy (Js.get p "is_complete") = false)) /\
  ((forall p, In p data -> p <> JUndefined /\ p <> JNull) ->
   exists kept, UserPage.in_progress data = Some kept).
Proof.
  split; [apply UserPageFacts.in_progress_throws|]. split.
  - intros kept H.
    pose proof (UserPageFacts.in_progress_filter data kept H) as Hkept.
    split; [exact Hkept|].
    intros p. rewrite Hkept, filter_In.
    now rewrite Bool.negb_true_iff.
  - intros Hobjects.
    destruct (UserPage.in_progress data) as [kept|] eqn:H; [now exists kept|].
    apply UserPageFacts.in_progress_throws in H as (p & Hin & Hnull).
    destruct (Hobjects p Hin) as [H1 H2]. destruct Hnull; contradiction.
Qed.

(** A course in progress, a completed one and one without [is_complete]:
    the first and the last are kept. *)
Lemma in_progress_keeps_the_incomplete_witness :
  UserPage.in_progress
    [JObj [("is_complete", JBool false)]; JObj [("is_complete", JBool true)];
     JObj [("title", JStr "t")]] =
  Some [JObj [("is_complete", JBool false)]; JObj [("title", JStr "t")]].
Proof.
  destruct (in_progress_keeps_the_incomplete
              [JObj [("is_complete", JBool false)]; JObj [("is_complete", JBool true)];
               JObj [("title", JStr "t")]]) as (_ & _ & Htotal).
  destruct Htotal as [kept Hkept].
  - intros p [<- | [<- | [<- | []]]]; split; discriminate.
  - rewrite Hkept. f_equal.
    destruct (in_progress_keeps_the_incomplete
                [JObj [("is_complete", JBool false)];
                 JObj [("is_complete", JBool true)];
                 JObj [("title", JStr "t")]]) as (_ & Hfilter & _).
    exact (proj1 (Hfilter kept Hkept)).
Defined.

(** * The plans of the payload *)

(** X21: the coupon to apply after a completed request does not depend on
    the plans of the payload, nor on anything in it but
    [available_coupons] and [applied_coupon]: the plan of the selected price
    is looked up in the pricing data the context held before. *)
Theorem coupon_decision_ignores_fetched_plans schema context data1 data2
  (Hcoupons : Js.get data1 "available_coupons" = Js.get data2 "available_coupons")
  (Happlied : Js.get data1 "applied_coupon" = Js.get data2 "applied_coupon") :
  couponToApply
    (assign context
       (assignPricingData schema context (done_invoke_fetchPricingDataService data1))) =
  couponToApply
    (assign context
       (assignPricingData schema context (done_invoke_fetchPricingDataService data2))).
Proof.
  rewrite !couponToApply_assignPricingData.
  assert (extractAppliedDefaultCoupon data1 = extractAppliedDefaultCoupon data2) as ->.
  { unfold extractAppliedDefaultCoupon. now rewrite Hcoupons, Happlied. }
  reflexivity.
Qed.

(** The payload in which the plan [p1] has no discounted price, and the one
    without plans, leave the same coupon as the payload in which [p1] is
    discounted. *)
Lemma coupon_decision_ignores_fetched_plans_witness :
  let context :=
    {| pricingData := Scenario.payload_ppp; priceId := Some "p1"; quantity := 1;
       couponToApply := Some {| couponCode := JStr "P1"; couponType := ppp |} |} in
  couponToApply
    (assign context
       (assignPricingData specPricingPlanSchema context
          (done_invoke_fetchPricingDataService Scenario.payload_undiscounted))) =
  couponToApply
    (assign context
       (assignPricingData specPricingPlanSchema context
          (done_invoke_fetchPricingDataService Scenario.payload_ppp_no_plans))).
Proof.
  exact (coupon_decision_ignores_fetched_plans specPricingPlanSchema
           {| pricingData := Scenario.payload_ppp; priceId := Some "p1"; quantity := 1;
              couponToApply := Some {| couponCode := JStr "P1"; couponType := ppp |} |}
           Scenario.payload_undiscounted Scenario.payload_ppp_no_plans
           eq_refl eq_refl).
Defined.
